(** * pdf_service.py: the render handler and the retention sweeper

    A shallow embedding of [pdf_service.py].  The two coroutines of the
    service, [cleanup_old_pdfs] and [generate_pdf], are written as programs
    of a small state-and-exception monad over a [world] that holds what the
    Python code reaches through [os], [time], [print], [asyncio.sleep] and
    the Playwright browser.

    Python values are kept as the interpreter has them: [time.time()] and
    [os.path.getmtime] are binary64 floats (primitive floats here),
    [PDF_RETENTION_SECONDS] is an [int] ([Z]), the JSON body is an arbitrary
    JSON value, and [request.cookies], headers and [os.environ] are string
    dictionaries ([gmap string string]). *)

From Stdlib Require Import ZArith Floats.PrimFloat Floats.SpecFloat Floats.FloatOps.
From stdpp Require Import gmap strings list fin_maps pretty.

Local Open Scope Z_scope.

(** ** Python exceptions *)

(** The subclasses of [OSError] that the [os] calls of the sweeper raise. *)
Inductive oserror :=
  | FileNotFoundError
  | PermissionError
  | IsADirectoryError
  | OtherOSError.

(** [KeyboardInterrupt] derives from [BaseException] only, so that
    [except Exception] does not catch it.  [ValueError] stands for its
    subclasses [json.JSONDecodeError] and [UnicodeDecodeError], which
    [request.json()] raises on a body that is not JSON. *)
Inductive exn :=
  | OSError (k : oserror)
  | TypeError
  | KeyError
  | ValueError
  | KeyboardInterrupt.

(** [isinstance(e, Exception)] *)
Definition is_Exception (e : exn) : bool :=
  match e with
  | OSError _ => true
  | TypeError => true
  | KeyError => true
  | ValueError => true
  | KeyboardInterrupt => false
  end.

Inductive result (A : Type) :=
  | Ok (a : A)
  | Raise (e : exn).
Arguments Ok {A} a.
Arguments Raise {A} e.

(** ** Floats against ints

    [age > PDF_RETENTION_SECONDS] compares a float with an [int].  CPython
    compares the two by their exact mathematical values; a NaN is unordered
    with everything. *)
Definition float_cmp_int (x : float) (k : Z) : option comparison :=
  match Prim2SF x with
  | S754_nan => None
  | S754_infinity s => Some (if s then Lt else Gt)
  | S754_zero _ => Some (0 ?= k)
  | S754_finite s m e =>
      let v := if s then Z.neg m else Z.pos m in
      if 0 <=? e then Some (v * 2 ^ e ?= k) else Some (v ?= k * 2 ^ (- e))
  end.

(** [x > k] *)
Definition float_gt_int (x : float) (k : Z) : bool :=
  match float_cmp_int x k with
  | Some Gt => true
  | _ => false
  end.

(** [x == k] *)
Definition float_eq_int (x : float) (k : Z) : bool :=
  match float_cmp_int x k with
  | Some Eq => true
  | _ => false
  end.

(** ** The world *)

Inductive file_kind := Regular | Directory | OtherKind.

(** An entry of the output directory.  Besides its kind and modification
    time it carries the fault, if any, that each [os] call on it meets
    (the file vanished under a concurrent deletion, a permission is
    missing, ...). *)
Record file := {
  f_kind : file_kind;
  f_mtime : float;
  fault_stat : option oserror;      (* met by the [os.stat] of [os.path.isfile] *)
  fault_getmtime : option oserror;  (* met by [os.path.getmtime] *)
  fault_remove : option oserror     (* met by [os.remove] *)
}.

(** A file as [page.pdf] leaves it: regular, just written, no fault. *)
Definition fresh_file (now : float) : file :=
  {| f_kind := Regular; f_mtime := now;
     fault_stat := None; fault_getmtime := None; fault_remove := None |}.

Definition is_regular (k : file_kind) : bool :=
  match k with Regular => true | _ => false end.

(** [world] is what lies outside the process: the clock and the content of
    the output directory, keyed by file name. *)
Record world := {
  clock : float;
  pdf_dir : gmap string file;
  fault_listdir : option oserror
}.

(** A cookie as handed to [context.add_cookies]. *)
Record cookie := {
  c_name : string;
  c_value : string;
  c_domain : string;
  c_path : string
}.

(** The [margin] dictionary of [page.pdf]. *)
Record margin := {
  m_top : string;
  m_bottom : string;
  m_left : string;
  m_right : string
}.

(** JSON values, as [request.json()] returns them. *)
#[warnings="-register-all"]
Inductive json :=
  | JNull
  | JBool (b : bool)
  | JInt (z : Z)
  | JFloat (x : float)
  | JStr (s : string)
  | JArr (l : list json)
  | JObj (m : gmap string json).

(** The calls made on Playwright, in the order the handler makes them.
    The browser engine is an external collaborator: a call is recorded,
    what Chromium does with it is not modelled, except that [page.pdf]
    writes its [path].  Every call is taken to return: the runs described
    are those in which no Playwright call raises, and a statement about a
    run that returns is a statement about such a run. *)
Inductive browser_call :=
  | PlaywrightStart                                   (* async with async_playwright() *)
  | ChromiumLaunch                                    (* p.chromium.launch() *)
  | NewContext                                        (* browser.new_context() *)
  | AddCookies (cookies : list cookie)                (* context.add_cookies(...) *)
  | NewPage                                           (* context.new_page() *)
  | SetContent (html : json) (wait_until : string)    (* page.set_content(...) *)
  | Goto (url : json) (wait_until : string)           (* page.goto(...) *)
  | EmulateMedia (media : string)                     (* page.emulate_media(...) *)
  | PagePdf (path format : string) (print_background : bool)
            (scale : float) (mg : margin)             (* page.pdf(...) *)
  | BrowserClose                                      (* browser.close() *)
  | PlaywrightStop.                                   (* leaving the async with *)

(** What the process has emitted so far. *)
Inductive event :=
  | Printed (line : string)
  | Slept (seconds : Z)
  | Browser (c : browser_call).

Record state := {
  ext : world;
  trace : list event
}.

(** ** The monad: state that survives an exception *)

Definition M (A : Type) : Type := state -> state * result A.

Definition ret {A} (a : A) : M A := fun s => (s, Ok a).

Definition bind {A B} (m : M A) (k : A -> M B) : M B :=
  fun s =>
    match m s with
    | (s', Ok a) => k a s'
    | (s', Raise e) => (s', Raise e)
    end.

Definition raise {A} (e : exn) : M A := fun s => (s, Raise e).

Notation "x <- m ;; k" := (bind m (fun x => k))
  (at level 100, m at next level, right associativity).
Notation "m ;;; k" := (bind m (fun _ => k))
  (at level 100, right associativity).

(** [try: body  except Exception: handler] *)
Definition try_except_Exception {A} (body : M A) (handler : M A) : M A :=
  fun s =>
    match body s with
    | (s', Ok a) => (s', Ok a)
    | (s', Raise e) => if is_Exception e then handler s' else (s', Raise e)
    end.

(** [async with cm: body]: [leave] runs however [body] ends. *)
Definition async_with {A} (enter : M unit) (body : M A) (leave : M unit) : M A :=
  fun s =>
    match enter s with
    | (s1, Raise e) => (s1, Raise e)
    | (s1, Ok _) =>
        match body s1 with
        | (s2, r) =>
            match leave s2 with
            | (s3, Raise e) => (s3, Raise e)
            | (s3, Ok _) => (s3, r)
            end
        end
    end.

Definition lift {A} (r : result A) : M A := fun s => (s, r).

(** [for x in xs: acc = body(acc, x)] *)
Fixpoint for_each {A B} (xs : list A) (acc : B) (body : B -> A -> M B) : M B :=
  match xs with
  | [] => ret acc
  | x :: xs' => acc' <- body acc x ;; for_each xs' acc' body
  end.

Definition get_world : M world := fun s => (s, Ok (ext s)).

Definition set_pdf_dir (d : gmap string file) : M unit :=
  fun s =>
    ({| ext := {| clock := clock (ext s); pdf_dir := d;
                  fault_listdir := fault_listdir (ext s) |};
        trace := trace s |}, Ok tt).

Definition emit (e : event) : M unit :=
  fun s => ({| ext := ext s; trace := trace s ++ [e] |}, Ok tt).

(** ** The [os], [time] and [asyncio] calls *)

Definition PDF_DIR : string := "generated_pdfs".

(** [os.path.join(d, name)] on a POSIX host, for a relative [name]. *)
Definition os_path_join (d name : string) : string := d +:+ "/" +:+ name.

Fixpoint strip_prefix (p s : string) : option string :=
  match p with
  | EmptyString => Some s
  | String a p' =>
      match s with
      | EmptyString => None
      | String b s' => if Ascii.eqb a b then strip_prefix p' s' else None
      end
  end.

(** The name under [PDF_DIR] that a path denotes, if it denotes one. *)
Definition resolve (path : string) : option string :=
  strip_prefix (PDF_DIR +:+ "/") path.

Definition stat_path (w : world) (path : string) : option file :=
  name ← resolve path; pdf_dir w !! name.

(** [time.time()] *)
Definition time_time : M float := w <- get_world ;; ret (clock w).

(** [os.listdir(PDF_DIR)] *)
Definition os_listdir : M (list string) :=
  w <- get_world ;;
  match fault_listdir w with
  | Some k => raise (OSError k)
  | None => ret (map_to_list (pdf_dir w)).*1
  end.

(** [os.path.isfile(path)]: [False] for a missing path and for any
    [OSError] of the underlying [os.stat]; it does not raise. *)
Definition os_path_isfile (path : string) : M bool :=
  w <- get_world ;;
  match stat_path w path with
  | None => ret false
  | Some f =>
      match fault_stat f with
      | Some _ => ret false
      | None => ret (is_regular (f_kind f))
      end
  end.

(** [os.path.getmtime(path)] *)
Definition os_path_getmtime (path : string) : M float :=
  w <- get_world ;;
  match stat_path w path with
  | None => raise (OSError FileNotFoundError)
  | Some f =>
      match fault_getmtime f with
      | Some k => raise (OSError k)
      | None => ret (f_mtime f)
      end
  end.

(** [os.remove(path)]: unlinks anything but a directory. *)
Definition os_remove (path : string) : M unit :=
  w <- get_world ;;
  match resolve path with
  | None => raise (OSError FileNotFoundError)
  | Some name =>
      match pdf_dir w !! name with
      | None => raise (OSError FileNotFoundError)
      | Some f =>
          match fault_remove f with
          | Some k => raise (OSError k)
          | None =>
              match f_kind f with
              | Directory => raise (OSError IsADirectoryError)
              | Regular | OtherKind => set_pdf_dir (delete name (pdf_dir w))
              end
          end
      end
  end.

(** [print(line)] *)
Definition print (line : string) : M unit := emit (Printed line).

(** ** Settings read from the environment at import *)

Record settings := {
  PDF_RETENTION_SECONDS : Z;
  PDF_CLEANUP_INTERVAL : Z;
  PDF_FORMAT : string;
  PDF_PRINT_BACKGROUND : bool;
  PDF_SCALE : float;
  PDF_MARGIN_TOP : string;
  PDF_MARGIN_BOTTOM : string;
  PDF_MARGIN_LEFT : string;
  PDF_MARGIN_RIGHT : string;
  PDF_COOKIE_DOMAIN : option string
}.

(** The values the module takes when the environment sets none of them. *)
Definition default_settings : settings :=
  {| PDF_RETENTION_SECONDS := 3600;
     PDF_CLEANUP_INTERVAL := 300;
     PDF_FORMAT := "A4";
     PDF_PRINT_BACKGROUND := false;
     PDF_SCALE := 0x1.3333333333333p-1%float;   (* float("0.6") *)
     PDF_MARGIN_TOP := "1cm";
     PDF_MARGIN_BOTTOM := "1cm";
     PDF_MARGIN_LEFT := "1cm";
     PDF_MARGIN_RIGHT := "1cm";
     PDF_COOKIE_DOMAIN := None |}.

(** ** Loops *)

(** How a bounded run of a loop stands when its fuel is spent. *)
Inductive task_status :=
  | Running     (* still inside the loop *)
  | Returned.   (* the loop was left through its condition *)

(** [while cond: body], run for at most [fuel] iterations.  The loops of
    this program have a constant condition. *)
Fixpoint while_loop (cond : bool) (body : M unit) (fuel : nat) : M task_status :=
  match fuel with
  | O => ret Running
  | S fuel' =>
      if cond then (body ;;; while_loop cond body fuel') else ret Returned
  end.

(** ** Background cleanup task *)

Section Sweeper.

Variable cfg : settings.

(** What the rest of the system (request handlers, the operator, the
    clock) does to the world while the task is suspended in
    [asyncio.sleep]. *)
Variable environment : world -> world.

(** [await asyncio.sleep(seconds)] *)
Definition asyncio_sleep (seconds : Z) : M unit :=
  fun s =>
    ({| ext := environment (ext s); trace := trace s ++ [Slept seconds] |},
     Ok tt).

(** The [try] block of the loop over the directory, with its handler:
    the new value of [removed]. *)
Definition sweep_file (now : float) (removed : nat) (filename : string) : M nat :=
  let file_path := os_path_join PDF_DIR filename in
  try_except_Exception
    (isfile <- os_path_isfile file_path ;;
     if isfile then
       mtime <- os_path_getmtime file_path ;;
       let age := PrimFloat.sub now mtime in
       if float_gt_int age (PDF_RETENTION_SECONDS cfg) then
         (os_remove file_path ;;;
          ret (S removed))
       else ret removed
     else ret removed)
    (ret removed).

Definition cleanup_message (removed : nat) : string :=
  "[CLEANUP] Removed " +:+ pretty removed +:+ " expired PDF(s)".

(** One pass of the body of [while True], up to the [sleep]: the sweep
    of the directory and the log line.  It returns [removed]. *)
Definition sweep_cycle : M nat :=
  now <- time_time ;;
  filenames <- os_listdir ;;
  removed <- for_each filenames 0%nat (sweep_file now) ;;
  (if (0 <? removed)%nat then print (cleanup_message removed) else ret tt) ;;;
  ret removed.

(** The body of the [while True] loop. *)
Definition loop_body : M unit :=
  sweep_cycle ;;;
  asyncio_sleep (PDF_CLEANUP_INTERVAL cfg).

(** [cleanup_old_pdfs], run for at most [fuel] iterations of its loop. *)
Definition cleanup_old_pdfs (fuel : nat) : M task_status :=
  while_loop true loop_body fuel.

End Sweeper.

(** ** Python operators on the request data *)

(** [key in s] for two strings: substring test. *)
Definition is_substring (key s : string) : bool :=
  match String.index 0 key s with
  | Some _ => true
  | None => false
  end.

(** [key in data]: key membership for a dict, element membership for a
    list, substring for a str; the other JSON values are not iterable. *)
Definition py_contains (key : string) (data : json) : result bool :=
  match data with
  | JObj m => Ok (bool_decide (is_Some (m !! key)))
  | JArr l =>
      Ok (existsb (fun x => match x with
                            | JStr s => String.eqb s key
                            | _ => false
                            end) l)
  | JStr s => Ok (is_substring key s)
  | JNull | JBool _ | JInt _ | JFloat _ => Raise TypeError
  end.

(** [data[key]] for a str [key] *)
Definition py_getitem (data : json) (key : string) : result json :=
  match data with
  | JObj m =>
      match m !! key with
      | Some v => Ok v
      | None => Raise KeyError
      end
  | _ => Raise TypeError
  end.

(** Truth value of [None] or a str. *)
Definition truthy (o : option string) : bool :=
  match o with
  | Some s => negb (String.eqb s "")
  | None => false
  end.

(** [a or b], for [a] that is [None] or a str. *)
Definition py_or (a : option string) (b : string) : string :=
  match a with
  | Some s => if String.eqb s "" then b else s
  | None => b
  end.

(** ** Requests and responses *)

(** A request, with its body already parsed by [request.json()]. *)
Record request := {
  req_json : json;                      (* await request.json() *)
  req_cookies : gmap string string;     (* request.cookies *)
  req_scheme : string;                  (* request.url.scheme *)
  req_hostname : option string;         (* request.url.hostname *)
  req_headers : gmap string string      (* request.headers, names in lower case *)
}.

(** What the handler returns: a [JSONResponse], or a dict that FastAPI
    sends as a 200. *)
Inductive returned :=
  | JSONResponse (status_code : Z) (content : gmap string string)
  | Dict (d : gmap string string).

Definition status_of (r : returned) : Z :=
  match r with
  | JSONResponse c _ => c
  | Dict _ => 200
  end.

Definition body_of (r : returned) : gmap string string :=
  match r with
  | JSONResponse _ b => b
  | Dict d => d
  end.

(** ** PDF rendering helper and endpoint *)

(** A Playwright call that returns. *)
Definition browser (c : browser_call) : M unit := emit (Browser c).

(** [page.pdf(path=..., ...)]: the call, and the file Chromium writes. *)
Definition page_pdf (path format : string) (print_background : bool)
    (scale : float) (mg : margin) : M unit :=
  browser (PagePdf path format print_background scale mg) ;;;
  w <- get_world ;;
  match resolve path with
  | Some name => set_pdf_dir (<[name := fresh_file (clock w)]> (pdf_dir w))
  | None => ret tt
  end.

Definition error_message : string :=
  "Provide either 'html' or 'url' in the JSON body.".

Section Handler.

Variable cfg : settings.

(** [os.environ] *)
Variable environ : gmap string string.

Definition render_pdf (output_path : string) : M unit :=
  browser (EmulateMedia "print") ;;;
  page_pdf output_path (PDF_FORMAT cfg) (PDF_PRINT_BACKGROUND cfg) (PDF_SCALE cfg)
    {| m_top := PDF_MARGIN_TOP cfg;
       m_bottom := PDF_MARGIN_BOTTOM cfg;
       m_left := PDF_MARGIN_LEFT cfg;
       m_right := PDF_MARGIN_RIGHT cfg |}.

(** The block under [async with async_playwright() as p].  [Some r]:
    the handler returned [r] from inside the block; [None]: control
    falls out of the block. *)
Definition playwright_block (request : request) (data : json)
    (output_path : string) (laravel_token : option string)
    : M (option returned) :=
  browser ChromiumLaunch ;;;
  browser NewContext ;;;
  (if truthy laravel_token then
     let domain :=
       py_or (PDF_COOKIE_DOMAIN cfg) (py_or (req_hostname request) "localhost") in
     browser (AddCookies [ {| c_name := "token";
                              c_value := default "" laravel_token;
                              c_domain := domain;
                              c_path := "/" |} ])
   else ret tt) ;;;
  browser NewPage ;;;
  early <-
    (has_html <- lift (py_contains "html" data) ;;
     if has_html then
       html <- lift (py_getitem data "html") ;;
       browser (SetContent html "networkidle") ;;;
       ret None
     else
       has_url <- lift (py_contains "url" data) ;;
       if has_url then
         url <- lift (py_getitem data "url") ;;
         browser (Goto url "networkidle") ;;;
         ret None
       else
         browser BrowserClose ;;;
         ret (Some (JSONResponse 400 {[ "error" := error_message ]}))) ;;
  match early with
  | Some r => ret (Some r)
  | None =>
      render_pdf output_path ;;;
      browser BrowserClose ;;;
      ret None
  end.

(** [generate_pdf(request)]; [uuid4] is the value [str(uuid.uuid4())]
    draws. *)
Definition generate_pdf (uuid4 : string) (request : request) : M returned :=
  let data := req_json request in
  let pdf_id := uuid4 in
  let output_path := os_path_join PDF_DIR (pdf_id +:+ ".pdf") in
  let laravel_token := req_cookies request !! "token" in
  early <- async_with (browser PlaywrightStart)
             (playwright_block request data output_path laravel_token)
             (browser PlaywrightStop) ;;
  match early with
  | Some r => ret r
  | None =>
      let base_url := environ !! "PDF_BASE_URL" in
      let base_url :=
        if negb (truthy base_url) then
          let scheme := req_scheme request in
          let host :=
            default ("localhost:" +:+ default "8080" (environ !! "PORT"))
                    (req_headers request !! "host") in
          scheme +:+ "://" +:+ host
        else default "" base_url in
      let pdf_url := base_url +:+ "/pdfs/" +:+ pdf_id +:+ ".pdf" in
      ret (Dict {[ "pdf_url" := pdf_url ]})
  end.

End Handler.

(** ** The route, from the raw request *)

(** A request as it arrives: [raw_json] is what [await request.json()]
    gives, the parsed body or the error of a body that is not JSON. *)
Record raw_request := {
  raw_json : result json;
  raw_cookies : gmap string string;
  raw_scheme : string;
  raw_hostname : option string;
  raw_headers : gmap string string
}.

Definition parsed (raw : raw_request) (data : json) : request :=
  {| req_json := data;
     req_cookies := raw_cookies raw;
     req_scheme := raw_scheme raw;
     req_hostname := raw_hostname raw;
     req_headers := raw_headers raw |}.

(** [POST /generate-pdf]: line 124, [data = await request.json()], whose
    error ends the handler before anything else is done, and then the rest
    of [generate_pdf] on the parsed body. *)
Definition post_generate_pdf (cfg : settings) (environ : gmap string string)
    (uuid4 : string) (raw : raw_request) : M returned :=
  data <- lift (raw_json raw) ;;
  generate_pdf cfg environ uuid4 (parsed raw data).

(** ** Settings parsed from strings *)

(** [s.split(sep)] for a separator of one character: every occurrence
    splits, and empty pieces are kept. *)
Fixpoint str_split (sep : Ascii.ascii) (s : string) : list string :=
  match s with
  | EmptyString => [EmptyString]
  | String c s' =>
      if Ascii.eqb c sep then EmptyString :: str_split sep s'
      else
        match str_split sep s' with
        | piece :: rest => String c piece :: rest
        | [] => [String c EmptyString]
        end
  end.

(** The character [","]. *)
Definition comma : Ascii.ascii := Ascii.ascii_of_nat 44.

(** [os.environ.get("CORS_ORIGINS", "http://localhost:5173").split(",")] *)
Definition CORS_ORIGINS (environ : gmap string string) : list string :=
  str_split comma (default "http://localhost:5173" (environ !! "CORS_ORIGINS")).

(** ** Vocabulary of the statements *)

(** The age the sweeper computes for [f] when the cycle starts at [now]. *)
Definition age (now : float) (f : file) : float := PrimFloat.sub now (f_mtime f).

(** The age exceeds the retention threshold. *)
Definition expired (cfg : settings) (now : float) (f : file) : bool :=
  float_gt_int (age now f) (PDF_RETENTION_SECONDS cfg).

(** No [os] call on [f] meets a fault. *)
Definition healthy (f : file) : Prop :=
  fault_stat f = None ∧ fault_getmtime f = None ∧ fault_remove f = None.

(** [f] is a regular file, expired, and every call on the way to its
    deletion succeeds. *)
Definition swept (cfg : settings) (now : float) (f : file) : bool :=
  match fault_stat f, fault_getmtime f, fault_remove f with
  | None, None, None => is_regular (f_kind f) && expired cfg now f
  | _, _, _ => false
  end.

(** What a cycle leaves of an entry. *)
Definition keep (cfg : settings) (now : float) (f : file) : option file :=
  if swept cfg now f then None else Some f.

Definition with_pdf_dir (d : gmap string file) (s : state) : state :=
  {| ext := {| clock := clock (ext s); pdf_dir := d;
               fault_listdir := fault_listdir (ext s) |};
     trace := trace s |}.

(** The log line of a cycle that removed [removed] files. *)
Definition cleanup_log (removed : nat) : list event :=
  if (0 <? removed)%nat then [Printed (cleanup_message removed)] else [].

(** The state a completed cycle leaves: directory [d], [removed] files
    gone. *)
Definition after_sweep (d : gmap string file) (removed : nat) (s : state) : state :=
  {| ext := ext (with_pdf_dir d s);
     trace := trace s ++ cleanup_log removed |}.

(** The durations of the [asyncio.sleep] calls in a trace, in order. *)
Definition sleeps (t : list event) : list Z :=
  omap (fun e => match e with Slept n => Some n | _ => None end) t.

(** *** The handler *)

(** The same request with the [token] cookie taken out of the jar. *)
Definition without_token (req : request) : request :=
  {| req_json := req_json req;
     req_cookies := delete "token" (req_cookies req);
     req_scheme := req_scheme req;
     req_hostname := req_hostname req;
     req_headers := req_headers req |}.


(** [s] after the process has emitted [evs]. *)
Definition emitted (evs : list event) (s : state) : state :=
  {| ext := ext s; trace := trace s ++ evs |}.

(** The cookies handed to [context.add_cookies] in a trace, in order. *)
Definition added_cookies (t : list event) : list cookie :=
  mjoin (omap (fun e => match e with
                        | Browser (AddCookies cs) => Some cs
                        | _ => None
                        end) t).

(** The calls that load or print a page. *)
Definition is_rendering (e : event) : bool :=
  match e with
  | Browser (SetContent _ _) | Browser (Goto _ _)
  | Browser (EmulateMedia _) | Browser (PagePdf _ _ _ _ _) => true
  | _ => false
  end.

Definition is_goto (e : event) : bool :=
  match e with
  | Browser (Goto _ _) => true
  | _ => false
  end.

(** The events up to and including [context.new_page()]. *)
Definition prelude (cfg : settings) (req : request) : list event :=
  [Browser PlaywrightStart; Browser ChromiumLaunch; Browser NewContext]
  ++ match req_cookies req !! "token" with
     | Some v =>
         if String.eqb v "" then []
         else [Browser (AddCookies
                 [ {| c_name := "token"; c_value := v;
                      c_domain := py_or (PDF_COOKIE_DOMAIN cfg)
                                    (py_or (req_hostname req) "localhost");
                      c_path := "/" |} ])]
     | None => []
     end
  ++ [Browser NewPage].

(** The events of a request that loads a page with the call [nav]. *)
Definition render_events (cfg : settings) (req : request) (uuid4 : string)
    (nav : browser_call) : list event :=
  prelude cfg req
  ++ [Browser nav;
      Browser (EmulateMedia "print");
      Browser (PagePdf (os_path_join PDF_DIR (uuid4 +:+ ".pdf"))
                 (PDF_FORMAT cfg) (PDF_PRINT_BACKGROUND cfg) (PDF_SCALE cfg)
                 {| m_top := PDF_MARGIN_TOP cfg;
                    m_bottom := PDF_MARGIN_BOTTOM cfg;
                    m_left := PDF_MARGIN_LEFT cfg;
                    m_right := PDF_MARGIN_RIGHT cfg |});
      Browser BrowserClose;
      Browser PlaywrightStop].

(** The state a rendering request leaves. *)
Definition rendered (cfg : settings) (req : request) (uuid4 : string)
    (nav : browser_call) (s : state) : state :=
  {| ext := {| clock := clock (ext s);
               pdf_dir := <[uuid4 +:+ ".pdf" := fresh_file (clock (ext s))]>
                            (pdf_dir (ext s));
               fault_listdir := fault_listdir (ext s) |};
     trace := trace s ++ render_events cfg req uuid4 nav |}.

(** The base of the returned address. *)
Definition base_url (environ : gmap string string) (req : request) : string :=
  match environ !! "PDF_BASE_URL" with
  | Some b =>
      if String.eqb b "" then
        req_scheme req +:+ "://" +:+
          default ("localhost:" +:+ default "8080" (environ !! "PORT"))
                  (req_headers req !! "host")
      else b
  | None =>
      req_scheme req +:+ "://" +:+
        default ("localhost:" +:+ default "8080" (environ !! "PORT"))
                (req_headers req !! "host")
  end.

(** What a rendering request returns. *)
Definition success (environ : gmap string string) (req : request)
    (uuid4 : string) : returned :=
  Dict {[ "pdf_url" := base_url environ req +:+ "/pdfs/" +:+ uuid4 +:+ ".pdf" ]}.

(** What [generate_pdf] does, by the outcome of the tests on the body. *)
Definition outcome (cfg : settings) (environ : gmap string string)
    (uuid4 : string) (req : request) (s : state) : state * result returned :=
  let failed e := (emitted (prelude cfg req ++ [Browser PlaywrightStop]) s, Raise e) in
  match py_contains "html" (req_json req) with
  | Raise e => failed e
  | Ok true =>
      match py_getitem (req_json req) "html" with
      | Raise e => failed e
      | Ok html =>
          (rendered cfg req uuid4 (SetContent html "networkidle") s,
           Ok (success environ req uuid4))
      end
  | Ok false =>
      match py_contains "url" (req_json req) with
      | Raise e => failed e
      | Ok true =>
          match py_getitem (req_json req) "url" with
          | Raise e => failed e
          | Ok url =>
              (rendered cfg req uuid4 (Goto url "networkidle") s,
               Ok (success environ req uuid4))
          end
      | Ok false =>
          (emitted (prelude cfg req ++ [Browser BrowserClose; Browser PlaywrightStop]) s,
           Ok (JSONResponse 400 {[ "error" := error_message ]}))
      end
  end.

(** *** Sample requests *)

Definition empty_state : state :=
  {| ext := {| clock := 10000%float; pdf_dir := ∅; fault_listdir := None |};
     trace := [] |}.

Definition sample_uuid : string := "1b4e28ba-2fa1-4d3b-a3f5-ef19b5a7633b".

(** A request built around a body and a cookie jar. *)
Definition request_with (body : json) (cookies : gmap string string) : request :=
  {| req_json := body;
     req_cookies := cookies;
     req_scheme := "https";
     req_hostname := Some "pdf.example.com";
     req_headers := {[ "host" := "pdf.example.com" ]} |}.

Definition html_body : gmap string json := {[ "html" := JStr "<h1>Invoice</h1>" ]}.
Definition url_body : gmap string json := {[ "url" := JStr "https://example.com" ]}.
Definition both_body : gmap string json :=
  {[ "html" := JStr "<h1>Invoice</h1>"; "url" := JStr "https://example.com" ]}.
Definition other_body : gmap string json := {[ "markup" := JStr "<h1>Invoice</h1>" ]}.

(** A request reaching the service with no host information at all. *)
Definition bare_request : request :=
  {| req_json := JObj html_body;
     req_cookies := {[ "token" := "s3cr3t" ]};
     req_scheme := "http";
     req_hostname := None;
     req_headers := ∅ |}.

(** An environment that configures the public base address. *)
Definition cdn_environ : gmap string string :=
  {[ "PDF_BASE_URL" := "https://cdn.example.com" ]}.

(** *** Sample worlds *)

Definition plain_file (k : file_kind) (mtime : float) : file :=
  {| f_kind := k; f_mtime := mtime;
     fault_stat := None; fault_getmtime := None; fault_remove := None |}.

(** Files written 9000 s, 3600 s and 9.5 s before the sample clock. *)
Definition old_pdf : file := plain_file Regular 1000%float.
Definition edge_pdf : file := plain_file Regular 6400%float.
Definition new_pdf : file := plain_file Regular 9990.5%float.

(** An expired file whose deletion is refused, and one that vanishes
    between [isfile] and [getmtime]. *)
Definition locked_pdf : file :=
  {| f_kind := Regular; f_mtime := 1000%float;
     fault_stat := None; fault_getmtime := None;
     fault_remove := Some PermissionError |}.
Definition vanishing_pdf : file :=
  {| f_kind := Regular; f_mtime := 1000%float;
     fault_stat := None; fault_getmtime := Some FileNotFoundError;
     fault_remove := Some FileNotFoundError |}.

Definition sample_world : world :=
  {| clock := 10000%float;
     pdf_dir := {[ "old.pdf" := old_pdf;
                   "edge.pdf" := edge_pdf;
                   "new.pdf" := new_pdf;
                   "locked.pdf" := locked_pdf;
                   "vanishing.pdf" := vanishing_pdf;
                   "subdir" := plain_file Directory 1000%float ]};
     fault_listdir := None |}.

Definition sample_state : state := {| ext := sample_world; trace := [] |}.

(** A directory with nothing to remove. *)
Definition quiet_state : state :=
  {| ext := {| clock := 10000%float;
               pdf_dir := {[ "new.pdf" := new_pdf ]};
               fault_listdir := None |};
     trace := [] |}.

(** An environment in which five minutes pass during each sleep. *)
Definition five_minutes_pass (w : world) : world :=
  {| clock := PrimFloat.add (clock w) 300%float;
     pdf_dir := pdf_dir w;
     fault_listdir := None |}.

(** *** Further vocabulary *)

Definition is_object (d : json) : bool :=
  match d with
  | JObj _ => true
  | _ => false
  end.

Definition is_close (e : event) : bool :=
  match e with
  | Browser BrowserClose => true
  | _ => false
  end.

Definition is_set_content (e : event) : bool :=
  match e with
  | Browser (SetContent _ _) => true
  | _ => false
  end.

Definition is_add_cookies (e : event) : bool :=
  match e with
  | Browser (AddCookies _) => true
  | _ => false
  end.

(** The [page.pdf] calls of a trace, in order. *)
Definition pdf_calls (t : list event) : list browser_call :=
  omap (fun e => match e with
                 | Browser (PagePdf p f b sc mg) => Some (PagePdf p f b sc mg)
                 | _ => None
                 end) t.

(** The lines printed in a trace, in order. *)
Definition printed (t : list event) : list string :=
  omap (fun e => match e with Printed l => Some l | _ => None end) t.

(** [s] with the clock at [t]. *)
Definition at_time (t : float) (s : state) : state :=
  {| ext := {| clock := t; pdf_dir := pdf_dir (ext s);
               fault_listdir := fault_listdir (ext s) |};
     trace := trace s |}.

(** [cfg] with another retention threshold. *)
Definition with_retention (r : Z) (cfg : settings) : settings :=
  {| PDF_RETENTION_SECONDS := r;
     PDF_CLEANUP_INTERVAL := PDF_CLEANUP_INTERVAL cfg;
     PDF_FORMAT := PDF_FORMAT cfg;
     PDF_PRINT_BACKGROUND := PDF_PRINT_BACKGROUND cfg;
     PDF_SCALE := PDF_SCALE cfg;
     PDF_MARGIN_TOP := PDF_MARGIN_TOP cfg;
     PDF_MARGIN_BOTTOM := PDF_MARGIN_BOTTOM cfg;
     PDF_MARGIN_LEFT := PDF_MARGIN_LEFT cfg;
     PDF_MARGIN_RIGHT := PDF_MARGIN_RIGHT cfg;
     PDF_COOKIE_DOMAIN := PDF_COOKIE_DOMAIN cfg |}.

(** The number of occurrences of [c] in [s]. *)
Fixpoint count_char (c : Ascii.ascii) (s : string) : nat :=
  match s with
  | EmptyString => 0
  | String a s' => (if Ascii.eqb a c then 1 else 0) + count_char c s'
  end.

(** A world whose output directory has been taken away. *)
Definition lost_state : state :=
  {| ext := {| clock := 10000%float;
               pdf_dir := {[ "old.pdf" := old_pdf ]};
               fault_listdir := Some FileNotFoundError |};
     trace := [] |}.

Definition other_uuid : string := "9f0c2d4e-7b1a-4c55-8e21-3a6d5b7c9e10".

(** An environment in which the output directory is taken away during
    the sleep. *)
Definition directory_removed (w : world) : world :=
  {| clock := PrimFloat.add (clock w) 300%float;
     pdf_dir := ∅;
     fault_listdir := Some FileNotFoundError |}.

(** A request whose body is not JSON. *)
Definition not_json_request : raw_request :=
  {| raw_json := Raise ValueError;
     raw_cookies := {[ "token" := "s3cr3t" ]};
     raw_scheme := "https";
     raw_hostname := Some "pdf.example.com";
     raw_headers := {[ "host" := "pdf.example.com" ]} |}.

(** Unfolds the monad and the [os] calls, leaving lookups to rewrite. *)
Ltac run :=
  cbv beta iota zeta delta
    [bind ret raise lift get_world set_pdf_dir emit try_except_Exception
     async_with time_time os_listdir os_path_isfile os_path_getmtime
     os_remove print browser page_pdf stat_path is_Exception];
  cbn [mbind option_bind ext trace clock pdf_dir fault_listdir fst snd].

(** Brings a trace to the form [trace s ++ [e1; e2; ...]]. *)
Ltac flat_trace := rewrite <- ?app_assoc; cbn [app].

(** ** The Python operators on sample values *)

Example float_cmp_int_samples :
  float_cmp_int 3600.5%float 3600 = Some Gt ∧
  float_cmp_int 3600%float 3600 = Some Eq ∧
  float_cmp_int 3599.75%float 3600 = Some Lt ∧
  float_cmp_int (-0.5)%float 0 = Some Lt ∧
  float_cmp_int 0%float 0 = Some Eq ∧
  float_cmp_int 0x1p+80%float (2 ^ 80 + 1) = Some Lt ∧
  float_cmp_int infinity 3600 = Some Gt ∧
  float_cmp_int nan 3600 = None.
Proof. repeat split; vm_compute; reflexivity. Qed.

Example py_contains_samples :
  py_contains "html" (JObj {[ "html" := JNull ]}) = Ok true ∧
  py_contains "html" (JObj {[ "HTML" := JNull ]}) = Ok false ∧
  py_contains "html" (JArr [JStr "url"; JStr "html"]) = Ok true ∧
  py_contains "html" (JArr [JInt 1]) = Ok false ∧
  py_contains "html" (JStr "<html></html>") = Ok true ∧
  py_contains "html" (JStr "plain") = Ok false ∧
  py_contains "html" JNull = Raise TypeError ∧
  py_contains "html" (JInt 5) = Raise TypeError.
Proof. repeat split; vm_compute; reflexivity. Qed.

(** ** The sweeper: one file *)

Lemma resolve_join (name : string) :
  resolve (os_path_join PDF_DIR name) = Some name.
Proof. reflexivity. Qed.

Lemma sweep_file_spec cfg now removed name s :
  sweep_file cfg now removed name s =
    match pdf_dir (ext s) !! name with
    | Some f =>
        if swept cfg now f
        then (with_pdf_dir (delete name (pdf_dir (ext s))) s, Ok (S removed))
        else (s, Ok removed)
    | None => (s, Ok removed)
    end.
Proof.
  unfold sweep_file, swept, expired, age. run.
  rewrite !resolve_join. run.
  destruct (pdf_dir (ext s) !! name) as [f|] eqn:Hf; run; [|reflexivity].
  destruct (fault_stat f); run; [reflexivity|].
  destruct (is_regular (f_kind f)) eqn:Hk; run; cbn [andb]; [|
    destruct (fault_getmtime f), (fault_remove f); reflexivity].
  rewrite Hf.
  destruct (fault_getmtime f); run; [reflexivity|].
  destruct (float_gt_int _ _); run; [|destruct (fault_remove f); reflexivity].
  rewrite Hf.
  destruct (fault_remove f); run; [reflexivity|].
  destruct (f_kind f); cbn in Hk; (discriminate Hk || reflexivity).
Qed.

Lemma with_pdf_dir_id s : with_pdf_dir (pdf_dir (ext s)) s = s.
Proof. destruct s as [[c d fl] t]. reflexivity. Qed.

Lemma with_pdf_dir_twice d d' s :
  with_pdf_dir d' (with_pdf_dir d s) = with_pdf_dir d' s.
Proof. reflexivity. Qed.

Lemma decide_elem_of_cons {A} (k n : string) (names : list string) (a b : A) :
  (if decide (k ∈ n :: names) then a else b)
  = if decide (k = n) then a else if decide (k ∈ names) then a else b.
Proof.
  repeat case_decide; try reflexivity; exfalso;
    rewrite elem_of_cons in *; tauto.
Qed.

(** ** The sweeper: the loop over the directory *)

(** The loop never raises; it leaves clock and trace alone; each name it
    visits keeps its entry or loses it by [keep]; and [removed] grows by
    the number of entries that went. *)
Lemma sweep_loop_spec cfg now (names : list string) :
  ∀ removed s,
    ∃ d removed',
      for_each names removed (sweep_file cfg now) s
        = (with_pdf_dir d s, Ok removed') ∧
      (∀ k, d !! k = if decide (k ∈ names)
                     then pdf_dir (ext s) !! k ≫= keep cfg now
                     else pdf_dir (ext s) !! k) ∧
      (size d + removed' = size (pdf_dir (ext s)) + removed)%nat.
Proof.
  induction names as [|n names IH]; intros removed s.
  - exists (pdf_dir (ext s)), removed. cbn [for_each]. unfold ret.
    rewrite with_pdf_dir_id. split; [reflexivity|]. split; [|reflexivity].
    intros k. case_decide as Hk; [by apply elem_of_nil in Hk|reflexivity].
  - cbn [for_each]. unfold bind at 1. rewrite sweep_file_spec.
    destruct (pdf_dir (ext s) !! n) as [f|] eqn:Hn;
      [destruct (swept cfg now f) eqn:Hsw|].
    + destruct (IH (S removed) (with_pdf_dir (delete n (pdf_dir (ext s))) s))
        as (d & r' & Hrun & Hd & Hsz).
      exists d, r'. rewrite Hrun, with_pdf_dir_twice.
      cbn [with_pdf_dir ext pdf_dir] in Hd, Hsz.
      split; [reflexivity|]. split.
      * intros k. rewrite Hd, decide_elem_of_cons.
        destruct (decide (k = n)) as [->|Hne].
        -- rewrite lookup_delete_eq, Hn. cbn. unfold keep. rewrite Hsw.
           by case_decide.
        -- by rewrite lookup_delete_ne.
      * assert (Hs : size (pdf_dir (ext s)) =
                     S (size (delete n (pdf_dir (ext s))))).
        { rewrite <- (insert_delete_id (pdf_dir (ext s)) n f) at 1 by done.
          rewrite map_size_insert_None by apply lookup_delete_eq. done. }
        lia.
    + destruct (IH removed s) as (d & r' & Hrun & Hd & Hsz).
      exists d, r'. split; [exact Hrun|]. split; [|exact Hsz].
      intros k. rewrite Hd, decide_elem_of_cons.
      destruct (decide (k = n)) as [->|Hne]; [|reflexivity].
      rewrite Hn. cbn. unfold keep. rewrite Hsw. by case_decide.
    + destruct (IH removed s) as (d & r' & Hrun & Hd & Hsz).
      exists d, r'. split; [exact Hrun|]. split; [|exact Hsz].
      intros k. rewrite Hd, decide_elem_of_cons.
      destruct (decide (k = n)) as [->|Hne]; [|reflexivity].
      rewrite Hn. by case_decide.
Qed.

(** ** The sweeper: one cycle *)

Lemma elem_of_listing (m : gmap string file) (k : string) :
  k ∈ (map_to_list m).*1 ↔ is_Some (m !! k).
Proof.
  rewrite list_elem_of_fmap. split.
  - intros [[k' f] [-> Hin]]. apply elem_of_map_to_list in Hin. by exists f.
  - intros [f Hf]. exists (k, f). split; [reflexivity|].
    by apply elem_of_map_to_list.
Qed.

(** A cycle whose [os.listdir] succeeds completes, whatever faults the
    entries carry. *)
Lemma sweep_cycle_spec cfg s :
  fault_listdir (ext s) = None →
  ∃ d removed,
    sweep_cycle cfg s = (after_sweep d removed s, Ok removed) ∧
    (∀ k, d !! k = pdf_dir (ext s) !! k ≫= keep cfg (clock (ext s))) ∧
    (size d + removed = size (pdf_dir (ext s)))%nat.
Proof.
  intros Hl. unfold sweep_cycle. run. rewrite Hl. run.
  destruct (sweep_loop_spec cfg (clock (ext s))
              (map_to_list (pdf_dir (ext s))).*1 0%nat s)
    as (d & removed & Hrun & Hd & Hsz).
  exists d, removed. rewrite Hrun. split; [|split].
  - unfold after_sweep, cleanup_log.
    destruct (0 <? removed)%nat; run; [reflexivity|].
    unfold with_pdf_dir. cbn [ext trace]. by rewrite app_nil_r.
  - intros k. rewrite Hd. case_decide as Hin; [reflexivity|].
    rewrite elem_of_listing in Hin.
    destruct (pdf_dir (ext s) !! k) eqn:E; [|reflexivity].
    exfalso. apply Hin. by eexists.
  - lia.
Qed.

(** A cycle whose [os.listdir] fails raises its error and changes
    nothing. *)
Lemma sweep_cycle_listdir_fault cfg s k :
  fault_listdir (ext s) = Some k →
  sweep_cycle cfg s = (s, Raise (OSError k)).
Proof. intros Hl. unfold sweep_cycle. run. rewrite Hl. reflexivity. Qed.

Lemma swept_healthy cfg now f :
  swept cfg now f = true → healthy f.
Proof.
  unfold swept, healthy.
  destruct (fault_stat f), (fault_getmtime f), (fault_remove f); done.
Qed.

Lemma swept_expired cfg now f :
  swept cfg now f = true → expired cfg now f = true.
Proof.
  unfold swept.
  destruct (fault_stat f), (fault_getmtime f), (fault_remove f); try done.
  by intros [_ ?]%andb_true_iff.
Qed.

Lemma swept_regular_healthy cfg now f :
  f_kind f = Regular → healthy f → swept cfg now f = expired cfg now f.
Proof.
  intros Hk (H1 & H2 & H3). unfold swept. by rewrite H1, H2, H3, Hk.
Qed.

Lemma float_eq_not_gt x k : float_eq_int x k = true → float_gt_int x k = false.
Proof.
  unfold float_eq_int, float_gt_int.
  by destruct (float_cmp_int x k) as [[]|].
Qed.

(** ** The sweeper: the properties of a cycle *)

(** C2. In a sweep cycle, a regular file on which the [os] calls succeed
    is deleted exactly when its age, the start time of the cycle minus its
    modification time, exceeds [PDF_RETENTION_SECONDS]; and a regular file
    whose age does not exceed it is still there after the cycle. *)
Theorem sweep_deletes_exactly_the_expired cfg s name f :
  fault_listdir (ext s) = None →
  pdf_dir (ext s) !! name = Some f →
  f_kind f = Regular →
  (healthy f →
     pdf_dir (ext (fst (sweep_cycle cfg s))) !! name
       = if expired cfg (clock (ext s)) f then None else Some f) ∧
  (expired cfg (clock (ext s)) f = false →
     pdf_dir (ext (fst (sweep_cycle cfg s))) !! name = Some f).
Proof.
  intros Hl Hf Hk.
  destruct (sweep_cycle_spec cfg s Hl) as (d & removed & -> & Hd & _).
  cbn [fst after_sweep with_pdf_dir ext pdf_dir]. rewrite Hd, Hf. cbn.
  unfold keep. split.
  - intros Hh. by rewrite swept_regular_healthy.
  - intros Hexp. destruct (swept _ _ f) eqn:Hsw; [|reflexivity].
    apply swept_expired in Hsw. congruence.
Qed.

Lemma sweep_deletes_exactly_the_expired_witness :
  (fault_listdir (ext sample_state) = None ∧
   pdf_dir (ext sample_state) !! "old.pdf" = Some old_pdf ∧
   f_kind old_pdf = Regular ∧ healthy old_pdf ∧
   expired default_settings (clock (ext sample_state)) old_pdf = true) ∧
  pdf_dir (ext (fst (sweep_cycle default_settings sample_state))) !! "old.pdf"
    = None.
Proof.
  assert (H : fault_listdir (ext sample_state) = None ∧
              pdf_dir (ext sample_state) !! "old.pdf" = Some old_pdf ∧
              f_kind old_pdf = Regular ∧ healthy old_pdf ∧
              expired default_settings (clock (ext sample_state)) old_pdf = true).
  { repeat split; vm_compute; reflexivity. }
  split; [exact H|].
  destruct H as (Hl & Hf & Hk & Hh & Hexp).
  destruct (sweep_deletes_exactly_the_expired default_settings sample_state
              "old.pdf" old_pdf Hl Hf Hk) as [Hdel _].
  rewrite (Hdel Hh), Hexp. reflexivity.
Defined.

(** C10. A regular file whose age equals [PDF_RETENTION_SECONDS] exactly
    is still there after a sweep cycle: the test is [age > threshold]. *)
Theorem sweep_keeps_the_boundary_age cfg s name f :
  pdf_dir (ext s) !! name = Some f →
  f_kind f = Regular →
  float_eq_int (age (clock (ext s)) f) (PDF_RETENTION_SECONDS cfg) = true →
  pdf_dir (ext (fst (sweep_cycle cfg s))) !! name = Some f.
Proof.
  intros Hf Hk Heq.
  destruct (fault_listdir (ext s)) as [k|] eqn:Hl.
  - by rewrite (sweep_cycle_listdir_fault cfg s k Hl).
  - destruct (sweep_cycle_spec cfg s Hl) as (d & removed & -> & Hd & _).
    cbn [fst after_sweep with_pdf_dir ext pdf_dir]. rewrite Hd, Hf. cbn.
    unfold keep. destruct (swept _ _ f) eqn:Hsw; [|reflexivity].
    apply swept_expired in Hsw. apply float_eq_not_gt in Heq.
    unfold expired in Hsw. congruence.
Qed.

Lemma sweep_keeps_the_boundary_age_witness :
  (pdf_dir (ext sample_state) !! "edge.pdf" = Some edge_pdf ∧
   f_kind edge_pdf = Regular ∧
   float_eq_int (age (clock (ext sample_state)) edge_pdf)
     (PDF_RETENTION_SECONDS default_settings) = true) ∧
  pdf_dir (ext (fst (sweep_cycle default_settings sample_state))) !! "edge.pdf"
    = Some edge_pdf.
Proof.
  assert (H : pdf_dir (ext sample_state) !! "edge.pdf" = Some edge_pdf ∧
              f_kind edge_pdf = Regular ∧
              float_eq_int (age (clock (ext sample_state)) edge_pdf)
                (PDF_RETENTION_SECONDS default_settings) = true).
  { repeat split; vm_compute; reflexivity. }
  split; [exact H|].
  destruct H as (Hf & Hk & Heq).
  exact (sweep_keeps_the_boundary_age default_settings sample_state
           "edge.pdf" edge_pdf Hf Hk Heq).
Defined.

(** C6. Whatever faults the [os] calls meet on the entries of the
    directory, the cycle completes without raising; every entry is dealt
    with by its own condition alone, so the entries after a faulty one are
    still processed; and an entry on which a call fails is left in
    place. *)
Theorem sweep_suppresses_file_errors cfg s :
  fault_listdir (ext s) = None →
  (∃ removed, snd (sweep_cycle cfg s) = Ok removed) ∧
  (∀ name,
     pdf_dir (ext (fst (sweep_cycle cfg s))) !! name
       = pdf_dir (ext s) !! name ≫= keep cfg (clock (ext s))) ∧
  (∀ name f,
     pdf_dir (ext s) !! name = Some f → ¬ healthy f →
     pdf_dir (ext (fst (sweep_cycle cfg s))) !! name = Some f).
Proof.
  intros Hl.
  destruct (sweep_cycle_spec cfg s Hl) as (d & removed & -> & Hd & _).
  cbn [fst snd after_sweep with_pdf_dir ext pdf_dir].
  split; [by exists removed|]. split; [exact Hd|].
  intros name f Hf Hbad. rewrite Hd, Hf. cbn. unfold keep.
  destruct (swept _ _ f) eqn:Hsw; [|reflexivity].
  by apply swept_healthy in Hsw.
Qed.

Lemma sweep_suppresses_file_errors_witness :
  fault_listdir (ext sample_state) = None ∧
  snd (sweep_cycle default_settings sample_state) = Ok 1%nat ∧
  pdf_dir (ext (fst (sweep_cycle default_settings sample_state)))
    !! "vanishing.pdf" = Some vanishing_pdf ∧
  pdf_dir (ext (fst (sweep_cycle default_settings sample_state)))
    !! "locked.pdf" = Some locked_pdf ∧
  pdf_dir (ext (fst (sweep_cycle default_settings sample_state)))
    !! "old.pdf" = None.
Proof.
  assert (Hl : fault_listdir (ext sample_state) = None) by reflexivity.
  destruct (sweep_suppresses_file_errors default_settings sample_state Hl)
    as (_ & Hall & Hbad).
  split; [exact Hl|]. split; [vm_compute; reflexivity|].
  split; [|split].
  - apply Hbad; [vm_compute; reflexivity|].
    intros (_ & H & _). discriminate H.
  - apply Hbad; [vm_compute; reflexivity|].
    intros (_ & _ & H). discriminate H.
  - rewrite Hall. vm_compute. reflexivity.
Defined.

(** C7. A cycle counts the deletions it performs: [removed] is the
    number of entries that left the directory, and none entered it.  It
    prints one line, carrying that count, exactly when the count is not
    zero, and nothing otherwise. *)
Theorem sweep_tallies_and_logs cfg s :
  fault_listdir (ext s) = None →
  ∃ removed,
    snd (sweep_cycle cfg s) = Ok removed ∧
    pdf_dir (ext (fst (sweep_cycle cfg s))) ⊆ pdf_dir (ext s) ∧
    (size (pdf_dir (ext (fst (sweep_cycle cfg s)))) + removed
       = size (pdf_dir (ext s)))%nat ∧
    trace (fst (sweep_cycle cfg s))
      = trace s ++ (if decide (removed = 0%nat) then []
                    else [Printed (cleanup_message removed)]).
Proof.
  intros Hl.
  destruct (sweep_cycle_spec cfg s Hl) as (d & removed & -> & Hd & Hsz).
  cbn [fst snd after_sweep with_pdf_dir ext pdf_dir trace].
  exists removed. split; [reflexivity|]. split; [|split; [exact Hsz|]].
  - apply map_subseteq_spec. intros k f. rewrite Hd.
    destruct (pdf_dir (ext s) !! k) as [g|]; cbn; [|done].
    unfold keep. by destruct (swept _ _ g).
  - unfold cleanup_log. destruct removed; reflexivity.
Qed.

Lemma sweep_tallies_and_logs_witness :
  (fault_listdir (ext sample_state) = None ∧
   fault_listdir (ext quiet_state) = None) ∧
  trace (fst (sweep_cycle default_settings sample_state))
    = [Printed "[CLEANUP] Removed 1 expired PDF(s)"] ∧
  trace (fst (sweep_cycle default_settings quiet_state)) = [].
Proof.
  split; [split; reflexivity|]. split.
  - destruct (sweep_tallies_and_logs default_settings sample_state eq_refl)
      as (removed & Hr & _ & _ & ->).
    assert (removed = 1%nat) as ->.
    { assert (E : snd (sweep_cycle default_settings sample_state) = Ok 1%nat)
        by (vm_compute; reflexivity).
      congruence. }
    vm_compute. reflexivity.
  - destruct (sweep_tallies_and_logs default_settings quiet_state eq_refl)
      as (removed & Hr & _ & _ & ->).
    assert (removed = 0%nat) as ->.
    { assert (E : snd (sweep_cycle default_settings quiet_state) = Ok 0%nat)
        by (vm_compute; reflexivity).
      congruence. }
    reflexivity.
Defined.

(** ** The sweeper: the loop *)

Lemma loop_body_spec cfg environment s :
  fault_listdir (ext s) = None →
  ∃ d removed,
    loop_body cfg environment s
      = ({| ext := environment (ext (with_pdf_dir d s));
            trace := trace s ++ cleanup_log removed
                       ++ [Slept (PDF_CLEANUP_INTERVAL cfg)] |}, Ok tt).
Proof.
  intros Hl. unfold loop_body. run.
  destruct (sweep_cycle_spec cfg s Hl) as (d & removed & -> & _).
  exists d, removed. unfold asyncio_sleep, after_sweep.
  cbn [ext trace]. by rewrite <- app_assoc.
Qed.

Lemma sleeps_app t1 t2 : sleeps (t1 ++ t2) = sleeps t1 ++ sleeps t2.
Proof. apply omap_app. Qed.

Lemma sleeps_cleanup_log removed : sleeps (cleanup_log removed) = [].
Proof. unfold cleanup_log. by destruct (0 <? removed)%nat. Qed.

(** An [os.listdir] that fails is not caught: it ends the task. *)
Lemma sweeper_dies_without_directory cfg environment fuel s k :
  fault_listdir (ext s) = Some k →
  cleanup_old_pdfs cfg environment (S fuel) s = (s, Raise (OSError k)).
Proof.
  intros Hl. unfold cleanup_old_pdfs. cbn [while_loop].
  unfold loop_body. run.
  by rewrite (sweep_cycle_listdir_fault cfg s k Hl).
Qed.

(** C8. As long as the output directory can be listed, the loop of
    [cleanup_old_pdfs] does not end: for every number of iterations, the
    task has run that many, each closed by a sleep of
    [PDF_CLEANUP_INTERVAL] seconds, and is still inside the loop; it has
    neither left the loop nor raised. *)
Theorem sweeper_never_stops cfg environment fuel :
  (∀ w, fault_listdir (environment w) = None) →
  ∀ s, fault_listdir (ext s) = None →
  ∃ s',
    cleanup_old_pdfs cfg environment fuel s = (s', Ok Running) ∧
    sleeps (trace s')
      = sleeps (trace s) ++ replicate fuel (PDF_CLEANUP_INTERVAL cfg) ∧
    fault_listdir (ext s') = None.
Proof.
  intros Henv. unfold cleanup_old_pdfs.
  induction fuel as [|fuel IH]; intros s Hl.
  - exists s. cbn. by rewrite app_nil_r.
  - cbn [while_loop]. unfold bind at 1.
    destruct (loop_body_spec cfg environment s Hl) as (d & removed & ->).
    match goal with |- context [while_loop _ _ _ ?s1] =>
      destruct (IH s1 (Henv _)) as (s' & Hrun & Hsl & Hl') end.
    exists s'. split; [exact Hrun|]. split; [|exact Hl'].
    rewrite Hsl. cbn [trace].
    rewrite !sleeps_app, sleeps_cleanup_log. cbn.
    by rewrite <- app_assoc.
Qed.

Lemma sweeper_never_stops_witness :
  (∀ w, fault_listdir (five_minutes_pass w) = None) ∧
  fault_listdir (ext sample_state) = None ∧
  ∃ s',
    cleanup_old_pdfs default_settings five_minutes_pass 3 sample_state
      = (s', Ok Running) ∧
    sleeps (trace s') = [300; 300; 300].
Proof.
  assert (Henv : ∀ w, fault_listdir (five_minutes_pass w) = None)
    by (intros w; reflexivity).
  split; [exact Henv|]. split; [reflexivity|].
  destruct (sweeper_never_stops default_settings five_minutes_pass 3 Henv
              sample_state eq_refl) as (s' & Hrun & Hsl & _).
  exists s'. split; [exact Hrun|]. exact Hsl.
Defined.

(** ** The handler: symbolic execution *)

Lemma generate_pdf_outcome cfg environ uuid4 req s :
  generate_pdf cfg environ uuid4 req s = outcome cfg environ uuid4 req s.
Proof.
  unfold generate_pdf, playwright_block, render_pdf, outcome, rendered,
    render_events, success, base_url, emitted, prelude.
  run.
  destruct (req_cookies req !! "token") as [v|]; cbn [truthy default];
    [destruct (String.eqb v ""); cbn [negb]|]; run.
  all: destruct (py_contains "html" (req_json req)) as [[|]|e]; run;
    [destruct (py_getitem (req_json req) "html") as [html|e]; run
    |destruct (py_contains "url" (req_json req)) as [[|]|e]; run;
      [destruct (py_getitem (req_json req) "url") as [url|e]; run| |]
    |].
  all: rewrite ?resolve_join; run.
  all: try (destruct (environ !! "PDF_BASE_URL") as [b|];
            cbn [truthy negb default];
            [destruct (String.eqb b ""); cbn [negb]|]).
  all: flat_trace; reflexivity.
Qed.

Lemma py_contains_absent (m : gmap string json) key :
  m !! key = None → py_contains key (JObj m) = Ok false.
Proof.
  intros H. cbn. f_equal. apply bool_decide_eq_false.
  rewrite H. by intros [? ?].
Qed.

Lemma py_contains_present (m : gmap string json) key v :
  m !! key = Some v → py_contains key (JObj m) = Ok true.
Proof.
  intros H. cbn. f_equal. apply bool_decide_eq_true. by exists v.
Qed.

Lemma py_getitem_present (m : gmap string json) key v :
  m !! key = Some v → py_getitem (JObj m) key = Ok v.
Proof. intros H. cbn. by rewrite H. Qed.


(** A body that is neither a dict, a list nor a str makes the first
    membership test raise: the handler fails with [TypeError]. *)
Lemma generate_pdf_not_a_container cfg environ uuid4 req s :
  py_contains "html" (req_json req) = Raise TypeError →
  snd (generate_pdf cfg environ uuid4 req s) = Raise TypeError.
Proof.
  intros H. rewrite generate_pdf_outcome. unfold outcome. by rewrite H.
Qed.

Lemma prelude_no_rendering cfg req :
  Forall (λ e, is_rendering e = false) (prelude cfg req).
Proof.
  unfold prelude.
  destruct (req_cookies req !! "token") as [v|];
    [destruct (String.eqb v "")|]; cbn [app]; repeat constructor.
Qed.

Lemma prelude_no_goto cfg req :
  Forall (λ e, is_goto e = false) (prelude cfg req).
Proof.
  unfold prelude.
  destruct (req_cookies req !! "token") as [v|];
    [destruct (String.eqb v "")|]; cbn [app]; repeat constructor.
Qed.

Lemma added_cookies_app t1 t2 :
  added_cookies (t1 ++ t2) = added_cookies t1 ++ added_cookies t2.
Proof. unfold added_cookies. by rewrite omap_app, join_app. Qed.

(** Every run emits the prelude first, and hands over no cookie after
    it. *)
Lemma generate_pdf_trace cfg environ uuid4 req s :
  ∃ tail,
    trace (fst (generate_pdf cfg environ uuid4 req s))
      = trace s ++ prelude cfg req ++ tail ∧
    added_cookies tail = [].
Proof.
  rewrite generate_pdf_outcome. unfold outcome, rendered, render_events, emitted.
  destruct (py_contains "html" (req_json req)) as [[|]|e];
    [destruct (py_getitem (req_json req) "html") as [html|e]
    |destruct (py_contains "url" (req_json req)) as [[|]|e];
       [destruct (py_getitem (req_json req) "url") as [url|e]| |]
    |];
    cbn [fst trace]; eexists; (split; [reflexivity|reflexivity]).
Qed.

(** ** The handler: the properties of a request *)




(** C3. A body with both keys takes the HTML branch: the markup under
    ['html'] is handed to [page.set_content], the request is rendered
    and answered as a success, and [page.goto] is never called. *)
Theorem generate_pdf_html_wins cfg environ uuid4 req
    (m : gmap string json) html url s :
  req_json req = JObj m →
  m !! "html" = Some html →
  m !! "url" = Some url →
  snd (generate_pdf cfg environ uuid4 req s) = Ok (success environ req uuid4) ∧
  ∃ evs,
    trace (fst (generate_pdf cfg environ uuid4 req s)) = trace s ++ evs ∧
    Browser (SetContent html "networkidle") ∈ evs ∧
    Forall (λ e, is_goto e = false) evs.
Proof.
  intros Hd Hh Hu. rewrite generate_pdf_outcome. unfold outcome.
  rewrite Hd, (py_contains_present m "html" html Hh),
    (py_getitem_present m "html" html Hh).
  cbn [fst snd rendered trace]. split; [reflexivity|].
  eexists. split; [reflexivity|]. unfold render_events. split.
  - apply elem_of_app. right. apply elem_of_cons. by left.
  - apply Forall_app. split; [apply prelude_no_goto|]. repeat constructor.
Qed.

Lemma generate_pdf_html_wins_witness :
  (req_json (request_with (JObj both_body) ∅) = JObj both_body ∧
   both_body !! "html" = Some (JStr "<h1>Invoice</h1>") ∧
   both_body !! "url" = Some (JStr "https://example.com")) ∧
  ∃ evs,
    trace (fst (generate_pdf default_settings ∅ sample_uuid
                  (request_with (JObj both_body) ∅) empty_state))
      = trace empty_state ++ evs ∧
    Browser (SetContent (JStr "<h1>Invoice</h1>") "networkidle") ∈ evs ∧
    Forall (λ e, is_goto e = false) evs.
Proof.
  assert (H : req_json (request_with (JObj both_body) ∅) = JObj both_body ∧
              both_body !! "html" = Some (JStr "<h1>Invoice</h1>") ∧
              both_body !! "url" = Some (JStr "https://example.com")).
  { repeat split; vm_compute; reflexivity. }
  split; [exact H|]. destruct H as (Hd & Hh & Hu).
  exact (proj2 (generate_pdf_html_wins default_settings ∅ sample_uuid
                  (request_with (JObj both_body) ∅) both_body _ _ empty_state
                  Hd Hh Hu)).
Defined.

Lemma string_eqb_empty (v : string) : v ≠ "" → String.eqb v "" = false.
Proof. intros H. by apply String.eqb_neq. Qed.

(** C4. A successful request returns, under ['pdf_url'], the address
    [B + "/pdfs/" + id + ".pdf"], [id] being the identifier drawn for the
    request.  [B] is the override [PDF_BASE_URL] when one is configured
    (a value that is not the empty string); otherwise it is
    [scheme + "://" + host], with the scheme of the request and its
    [Host] header, or [localhost:<PORT>] for a request without one. *)
Theorem generate_pdf_returns_the_address cfg environ uuid4 req s r :
  snd (generate_pdf cfg environ uuid4 req s) = Ok r →
  status_of r = 200 →
  ∃ B,
    body_of r !! "pdf_url" = Some (B +:+ "/pdfs/" +:+ uuid4 +:+ ".pdf") ∧
    (∀ b, environ !! "PDF_BASE_URL" = Some b → b ≠ "" → B = b) ∧
    (environ !! "PDF_BASE_URL" = None ∨ environ !! "PDF_BASE_URL" = Some "" →
       (∀ h, req_headers req !! "host" = Some h →
             B = req_scheme req +:+ "://" +:+ h) ∧
       (req_headers req !! "host" = None →
             B = req_scheme req +:+ "://" +:+
                 ("localhost:" +:+ default "8080" (environ !! "PORT")))).
Proof.
  intros Hr Hst.
  assert (Hs : r = success environ req uuid4).
  { rewrite generate_pdf_outcome in Hr. unfold outcome in Hr.
    destruct (py_contains "html" (req_json req)) as [[|]|e];
      [destruct (py_getitem (req_json req) "html") as [html|e]
      |destruct (py_contains "url" (req_json req)) as [[|]|e];
         [destruct (py_getitem (req_json req) "url") as [url|e]| |]
      |];
      cbn [snd] in Hr; try discriminate Hr;
      injection Hr as <-; [reflexivity| reflexivity |discriminate Hst]. }
  subst r. exists (base_url environ req). cbn [body_of success].
  split; [apply lookup_singleton_eq|]. unfold base_url. split.
  - intros b Hb Hne. by rewrite Hb, string_eqb_empty.
  - intros [Hb|Hb]; rewrite Hb; cbn [String.eqb];
      (split; [intros h Hh|intros Hh]; by rewrite Hh).
Qed.

Lemma generate_pdf_returns_the_address_witness :
  (snd (generate_pdf default_settings cdn_environ sample_uuid
          (request_with (JObj html_body) ∅) empty_state)
     = Ok (Dict {[ "pdf_url" :=
             "https://cdn.example.com/pdfs/1b4e28ba-2fa1-4d3b-a3f5-ef19b5a7633b.pdf" ]}) ∧
   snd (generate_pdf default_settings ∅ sample_uuid
          (request_with (JObj url_body) ∅) empty_state)
     = Ok (Dict {[ "pdf_url" :=
             "https://pdf.example.com/pdfs/1b4e28ba-2fa1-4d3b-a3f5-ef19b5a7633b.pdf" ]})) ∧
  (∃ B,
     body_of (Dict {[ "pdf_url" :=
       "https://cdn.example.com/pdfs/1b4e28ba-2fa1-4d3b-a3f5-ef19b5a7633b.pdf" ]})
       !! "pdf_url" = Some (B +:+ "/pdfs/" +:+ sample_uuid +:+ ".pdf") ∧
     B = "https://cdn.example.com") ∧
  (∃ B,
     body_of (Dict {[ "pdf_url" :=
       "https://pdf.example.com/pdfs/1b4e28ba-2fa1-4d3b-a3f5-ef19b5a7633b.pdf" ]})
       !! "pdf_url" = Some (B +:+ "/pdfs/" +:+ sample_uuid +:+ ".pdf") ∧
     B = "https://" +:+ "pdf.example.com").
Proof.
  assert (H1 : snd (generate_pdf default_settings cdn_environ sample_uuid
                      (request_with (JObj html_body) ∅) empty_state)
     = Ok (Dict {[ "pdf_url" :=
             "https://cdn.example.com/pdfs/1b4e28ba-2fa1-4d3b-a3f5-ef19b5a7633b.pdf" ]}))
    by (vm_compute; reflexivity).
  assert (H2 : snd (generate_pdf default_settings ∅ sample_uuid
                      (request_with (JObj url_body) ∅) empty_state)
     = Ok (Dict {[ "pdf_url" :=
             "https://pdf.example.com/pdfs/1b4e28ba-2fa1-4d3b-a3f5-ef19b5a7633b.pdf" ]}))
    by (vm_compute; reflexivity).
  split; [by split|]. split.
  - destruct (generate_pdf_returns_the_address _ _ _ _ _ _ H1 eq_refl)
      as (B & HB & Hset & _).
    exists B. split; [exact HB|].
    apply Hset; [vm_compute; reflexivity|discriminate].
  - destruct (generate_pdf_returns_the_address _ _ _ _ _ _ H2 eq_refl)
      as (B & HB & _ & Hunset).
    exists B. split; [exact HB|].
    apply Hunset; [left|]; vm_compute; reflexivity.
Defined.

Lemma prelude_cookies cfg req :
  added_cookies (prelude cfg req)
  = match req_cookies req !! "token" with
    | Some v =>
        if String.eqb v "" then []
        else [ {| c_name := "token"; c_value := v;
                  c_domain := py_or (PDF_COOKIE_DOMAIN cfg)
                                (py_or (req_hostname req) "localhost");
                  c_path := "/" |} ]
    | None => []
    end.
Proof.
  unfold prelude.
  destruct (req_cookies req !! "token") as [v|];
    [destruct (String.eqb v "")|]; reflexivity.
Qed.

(** C5, as amended. A request carrying a cookie [token] whose value is not
    the empty string has exactly one cookie added to the browser context:
    name [token], that value, path ["/"], and as domain
    [PDF_COOKIE_DOMAIN] when it is configured (not empty), otherwise the
    hostname of the request, or ["localhost"] when the request has none.
    A request without the cookie, or with an empty one, has no cookie
    added. *)
Theorem generate_pdf_forwards_the_token cfg environ uuid4 req s :
  ∃ evs,
    trace (fst (generate_pdf cfg environ uuid4 req s)) = trace s ++ evs ∧
    (∀ v, req_cookies req !! "token" = Some v → v ≠ "" →
       ∃ d,
         added_cookies evs
           = [ {| c_name := "token"; c_value := v; c_domain := d; c_path := "/" |} ] ∧
         (∀ o, PDF_COOKIE_DOMAIN cfg = Some o → o ≠ "" → d = o) ∧
         (PDF_COOKIE_DOMAIN cfg = None ∨ PDF_COOKIE_DOMAIN cfg = Some "" →
            (∀ h, req_hostname req = Some h → h ≠ "" → d = h) ∧
            (req_hostname req = None ∨ req_hostname req = Some "" →
               d = "localhost"))) ∧
    (req_cookies req !! "token" = None ∨ req_cookies req !! "token" = Some "" →
       added_cookies evs = []).
Proof.
  destruct (generate_pdf_trace cfg environ uuid4 req s) as (tail & Htr & Htail).
  exists (prelude cfg req ++ tail). split; [exact Htr|].
  rewrite added_cookies_app, Htail, app_nil_r, prelude_cookies. split.
  - intros v Hv Hne. rewrite Hv, string_eqb_empty by done.
    eexists. split; [reflexivity|]. unfold py_or. split.
    + intros o Ho Hno. by rewrite Ho, string_eqb_empty.
    + intros [Ho|Ho]; rewrite Ho; cbn [String.eqb]; split.
      * intros h Hh Hnh. by rewrite Hh, string_eqb_empty.
      * intros [Hh|Hh]; by rewrite Hh.
      * intros h Hh Hnh. by rewrite Hh, string_eqb_empty.
      * intros [Hh|Hh]; by rewrite Hh.
  - intros [Hv|Hv]; by rewrite Hv.
Qed.

Lemma generate_pdf_forwards_the_token_witness :
  ∃ evs,
    trace (fst (generate_pdf default_settings ∅ sample_uuid
                  (request_with (JObj html_body) {[ "token" := "s3cr3t" ]})
                  empty_state)) = evs ∧
    added_cookies evs
      = [ {| c_name := "token"; c_value := "s3cr3t";
             c_domain := "pdf.example.com"; c_path := "/" |} ].
Proof.
  destruct (generate_pdf_forwards_the_token default_settings ∅ sample_uuid
              (request_with (JObj html_body) {[ "token" := "s3cr3t" ]})
              empty_state) as (evs & Htr & Hsome & _).
  exists evs. split; [exact Htr|].
  destruct (Hsome "s3cr3t") as (d & -> & _ & Hd);
    [vm_compute; reflexivity|discriminate|].
  destruct Hd as [Hd _]; [by left|].
  by rewrite (Hd "pdf.example.com") by (reflexivity || discriminate).
Defined.

(** C5, as stated, fails: a request carrying [token=] (the empty value)
    has no cookie added; and for a request without a hostname the cookie
    is scoped to ["localhost"]. *)
Lemma generate_pdf_forwards_the_token_counterexample :
  (req_cookies (request_with (JObj html_body) {[ "token" := "" ]}) !! "token"
     = Some "" ∧
   added_cookies
     (trace (fst (generate_pdf default_settings ∅ sample_uuid
                    (request_with (JObj html_body) {[ "token" := "" ]})
                    empty_state))) = []) ∧
  (PDF_COOKIE_DOMAIN default_settings = None ∧
   req_hostname bare_request = None ∧
   added_cookies
     (trace (fst (generate_pdf default_settings ∅ sample_uuid bare_request
                    empty_state)))
     = [ {| c_name := "token"; c_value := "s3cr3t";
            c_domain := "localhost"; c_path := "/" |} ]).
Proof. repeat split; vm_compute; reflexivity. Qed.

Lemma prelude_without_token cfg req :
  req_cookies req !! "token" = Some "" →
  prelude cfg (without_token req) = prelude cfg req.
Proof.
  intros Hv. unfold prelude, without_token. cbn [req_cookies req_hostname].
  by rewrite lookup_delete_eq, Hv.
Qed.

(** C9. A [token] cookie with the empty string as value is treated as
    absent: no cookie is added to the browser context, and the whole run
    is the one of the same request without the cookie. *)
Theorem generate_pdf_ignores_an_empty_token cfg environ uuid4 req s :
  req_cookies req !! "token" = Some "" →
  (∃ evs,
     trace (fst (generate_pdf cfg environ uuid4 req s)) = trace s ++ evs ∧
     added_cookies evs = []) ∧
  generate_pdf cfg environ uuid4 req s
    = generate_pdf cfg environ uuid4 (without_token req) s.
Proof.
  intros Hv. split.
  - destruct (generate_pdf_trace cfg environ uuid4 req s)
      as (tail & Htr & Htail).
    exists (prelude cfg req ++ tail). split; [exact Htr|].
    by rewrite added_cookies_app, Htail, prelude_cookies, Hv.
  - rewrite !generate_pdf_outcome.
    unfold outcome, rendered, render_events, success, base_url.
    rewrite (prelude_without_token cfg req Hv). reflexivity.
Qed.

Lemma generate_pdf_ignores_an_empty_token_witness :
  req_cookies (request_with (JObj html_body) {[ "token" := "" ]}) !! "token"
    = Some "" ∧
  ∃ evs,
    trace (fst (generate_pdf default_settings ∅ sample_uuid
                  (request_with (JObj html_body) {[ "token" := "" ]})
                  empty_state)) = trace empty_state ++ evs ∧
    added_cookies evs = [].
Proof.
  assert (H : req_cookies (request_with (JObj html_body) {[ "token" := "" ]})
                !! "token" = Some "") by (vm_compute; reflexivity).
  split; [exact H|].
  exact (proj1 (generate_pdf_ignores_an_empty_token default_settings ∅
                  sample_uuid _ empty_state H)).
Defined.

(** ** The handler: further properties *)

Lemma generate_pdf_object cfg environ uuid4 req (m : gmap string json) s :
  req_json req = JObj m →
  generate_pdf cfg environ uuid4 req s
  = match m !! "html", m !! "url" with
    | Some html, _ =>
        (rendered cfg req uuid4 (SetContent html "networkidle") s,
         Ok (success environ req uuid4))
    | None, Some url =>
        (rendered cfg req uuid4 (Goto url "networkidle") s,
         Ok (success environ req uuid4))
    | None, None =>
        (emitted (prelude cfg req ++ [Browser BrowserClose; Browser PlaywrightStop]) s,
         Ok (JSONResponse 400 {[ "error" := error_message ]}))
    end.
Proof.
  intros Hd. rewrite generate_pdf_outcome. unfold outcome. rewrite Hd.
  destruct (m !! "html") as [html|] eqn:Hh.
  - by rewrite (py_contains_present m "html" html Hh),
      (py_getitem_present m "html" html Hh).
  - rewrite (py_contains_absent m "html" Hh).
    destruct (m !! "url") as [url|] eqn:Hu.
    + by rewrite (py_contains_present m "url" url Hu),
        (py_getitem_present m "url" url Hu).
    + by rewrite (py_contains_absent m "url" Hu).
Qed.

Lemma py_getitem_not_object data key :
  is_object data = false → py_getitem data key = Raise TypeError.
Proof. by destruct data. Qed.

(** What the handler does with a body that is not a JSON object. *)
Lemma generate_pdf_not_object cfg environ uuid4 req s :
  is_object (req_json req) = false →
  generate_pdf cfg environ uuid4 req s
    = (emitted (prelude cfg req ++ [Browser BrowserClose; Browser PlaywrightStop]) s,
       Ok (JSONResponse 400 {[ "error" := error_message ]}))
  ∨ generate_pdf cfg environ uuid4 req s
    = (emitted (prelude cfg req ++ [Browser PlaywrightStop]) s, Raise TypeError).
Proof.
  intros Hno. rewrite generate_pdf_outcome. unfold outcome.
  rewrite !(py_getitem_not_object _ _ Hno).
  destruct (req_json req) as [| | | | str|l|m]; try discriminate Hno;
    cbn [py_contains]; try (by right).
  - destruct (is_substring "html" str); [by right|].
    destruct (is_substring "url" str); [by right|by left].
  - destruct (existsb _ l); [by right|].
    destruct (existsb _ l); [by right|by left].
Qed.

(** X1. If the handler returns for a JSON-object body that has the key
    ['url'] and not the key ['html'], it has taken the URL branch:
    [page.goto] was called with the value under ['url'],
    [page.set_content] was never called, and the answer is a 200. *)
Theorem generate_pdf_url_branch cfg environ uuid4 req
    (m : gmap string json) url s r :
  snd (generate_pdf cfg environ uuid4 req s) = Ok r →
  req_json req = JObj m →
  m !! "html" = None →
  m !! "url" = Some url →
  status_of r = 200 ∧
  ∃ evs,
    trace (fst (generate_pdf cfg environ uuid4 req s)) = trace s ++ evs ∧
    Browser (Goto url "networkidle") ∈ evs ∧
    Forall (λ e, is_set_content e = false) evs.
Proof.
  intros Hr Hd Hh Hu. revert Hr.
  rewrite (generate_pdf_object _ _ _ _ m _ Hd), Hh, Hu.
  cbn [fst snd rendered trace]. intros [= <-]. split; [reflexivity|].
  eexists. split; [reflexivity|]. unfold render_events. split.
  - apply elem_of_app. right. apply elem_of_cons. by left.
  - apply Forall_app. split; [|repeat constructor].
    unfold prelude.
    destruct (req_cookies req !! "token") as [v|];
      [destruct (String.eqb v "")|]; cbn [app]; repeat constructor.
Qed.

Lemma generate_pdf_url_branch_witness :
  (snd (generate_pdf default_settings ∅ sample_uuid
          (request_with (JObj url_body) ∅) empty_state)
     = Ok (success ∅ (request_with (JObj url_body) ∅) sample_uuid) ∧
   req_json (request_with (JObj url_body) ∅) = JObj url_body ∧
   url_body !! "html" = None ∧
   url_body !! "url" = Some (JStr "https://example.com")) ∧
  ∃ evs,
    trace (fst (generate_pdf default_settings ∅ sample_uuid
                  (request_with (JObj url_body) ∅) empty_state))
      = trace empty_state ++ evs ∧
    Browser (Goto (JStr "https://example.com") "networkidle") ∈ evs ∧
    Forall (λ e, is_set_content e = false) evs.
Proof.
  assert (H : snd (generate_pdf default_settings ∅ sample_uuid
                     (request_with (JObj url_body) ∅) empty_state)
                = Ok (success ∅ (request_with (JObj url_body) ∅) sample_uuid) ∧
              req_json (request_with (JObj url_body) ∅) = JObj url_body ∧
              url_body !! "html" = None ∧
              url_body !! "url" = Some (JStr "https://example.com")).
  { repeat split; vm_compute; reflexivity. }
  split; [exact H|]. destruct H as (Hr & Hd & Hh & Hu).
  exact (proj2 (generate_pdf_url_branch default_settings ∅ sample_uuid
                  (request_with (JObj url_body) ∅) url_body _ empty_state _
                  Hr Hd Hh Hu)).
Defined.

(** X2. The handler answers with a success (status 200) exactly when the
    body is a JSON object that has the key ['html'] or the key ['url']:
    a list, a str, a number, a boolean or [null] is never rendered. *)
Theorem generate_pdf_succeeds_iff cfg environ uuid4 req s :
  (∃ r, snd (generate_pdf cfg environ uuid4 req s) = Ok r ∧ status_of r = 200)
  ↔ ∃ m : gmap string json,
      req_json req = JObj m ∧ (is_Some (m !! "html") ∨ is_Some (m !! "url")).
Proof.
  split.
  - intros (r & Hr & Hst).
    destruct (is_object (req_json req)) eqn:Hobj.
    + destruct (req_json req) as [| | | | | |m] eqn:Hd; try discriminate Hobj.
      exists m. split; [reflexivity|].
      rewrite (generate_pdf_object _ _ _ _ m _ Hd) in Hr.
      destruct (m !! "html"); [left; by eexists|].
      destruct (m !! "url"); [right; by eexists|].
      cbn [snd] in Hr. injection Hr as <-. discriminate Hst.
    + destruct (generate_pdf_not_object cfg environ uuid4 req s Hobj)
        as [E|E]; rewrite E in Hr; cbn [snd] in Hr; [|discriminate Hr].
      injection Hr as <-. discriminate Hst.
  - intros (m & Hd & Hkey). exists (success environ req uuid4).
    split; [|reflexivity].
    rewrite (generate_pdf_object _ _ _ _ m _ Hd).
    destruct (m !! "html"); [reflexivity|].
    destruct (m !! "url"); [reflexivity|].
    destruct Hkey as [[? ?]|[? ?]]; discriminate.
Qed.

Lemma prelude_no_close cfg req :
  Forall (λ e, is_close e = false) (prelude cfg req).
Proof.
  unfold prelude.
  destruct (req_cookies req !! "token") as [v|];
    [destruct (String.eqb v "")|]; cbn [app]; repeat constructor.
Qed.

Lemma prelude_no_pdf cfg req : pdf_calls (prelude cfg req) = [].
Proof.
  unfold prelude.
  destruct (req_cookies req !! "token") as [v|];
    [destruct (String.eqb v "")|]; reflexivity.
Qed.

Lemma pdf_calls_app t1 t2 : pdf_calls (t1 ++ t2) = pdf_calls t1 ++ pdf_calls t2.
Proof. apply omap_app. Qed.

(** A success is a run of one of the two rendering branches. *)
Lemma generate_pdf_success_state cfg environ uuid4 req s r :
  snd (generate_pdf cfg environ uuid4 req s) = Ok r →
  status_of r = 200 →
  ∃ nav,
    generate_pdf cfg environ uuid4 req s
      = (rendered cfg req uuid4 nav s, Ok (success environ req uuid4)) ∧
    r = success environ req uuid4 ∧
    ((∃ html, nav = SetContent html "networkidle")
     ∨ (∃ url, nav = Goto url "networkidle")).
Proof.
  intros Hr Hst.
  destruct (is_object (req_json req)) eqn:Hobj.
  - destruct (req_json req) as [| | | | | |m] eqn:Hd; try discriminate Hobj.
    rewrite (generate_pdf_object _ _ _ _ m _ Hd) in Hr |- *.
    destruct (m !! "html") as [html|].
    + eexists. split; [reflexivity|]. cbn [snd] in Hr.
      split; [congruence|]. left. by eexists.
    + destruct (m !! "url") as [url|].
      * eexists. split; [reflexivity|]. cbn [snd] in Hr.
        split; [congruence|]. right. by eexists.
      * cbn [snd] in Hr. injection Hr as <-. discriminate Hst.
  - destruct (generate_pdf_not_object cfg environ uuid4 req s Hobj)
      as [E|E]; rewrite E in Hr; cbn [snd] in Hr; [|discriminate Hr].
    injection Hr as <-. discriminate Hst.
Qed.

(** A run that is not a success leaves the world alone and emits the
    prelude, then at most [browser.close()], then the playwright exit. *)
Lemma generate_pdf_failure_state cfg environ uuid4 req s :
  (∃ r, snd (generate_pdf cfg environ uuid4 req s) = Ok r ∧ status_of r = 200)
  ∨ (∃ res closing,
       generate_pdf cfg environ uuid4 req s
         = (emitted (prelude cfg req ++ closing ++ [Browser PlaywrightStop]) s, res) ∧
       ((closing = [Browser BrowserClose] ∧
         res = Ok (JSONResponse 400 {[ "error" := error_message ]}))
        ∨ (closing = [] ∧ res = Raise TypeError ∧
           is_object (req_json req) = false))).
Proof.
  destruct (is_object (req_json req)) eqn:Hobj.
  - destruct (req_json req) as [| | | | | |m] eqn:Hd; try discriminate Hobj.
    rewrite (generate_pdf_object _ _ _ _ m _ Hd).
    destruct (m !! "html"); [left; by eexists|].
    destruct (m !! "url"); [left; by eexists|].
    right. exists (Ok (JSONResponse 400 {[ "error" := error_message ]})),
      [Browser BrowserClose].
    split; [reflexivity|]. by left.
  - right.
    destruct (generate_pdf_not_object cfg environ uuid4 req s Hobj) as [E|E];
      rewrite E.
    + exists (Ok (JSONResponse 400 {[ "error" := error_message ]})),
        [Browser BrowserClose].
      split; [reflexivity|]. by left.
    + exists (Raise TypeError), []. split; [reflexivity|]. by right.
Qed.

Lemma py_contains_raises key data e :
  py_contains key data = Raise e → e = TypeError.
Proof. destruct data; cbn; congruence. Qed.

(** X4. A body that is not a JSON object is answered with the 400 only
    if both [in] tests are false.  Otherwise ([null], a number, a boolean,
    or a list or str that holds ['html'] or ['url']) the handler raises
    [TypeError], from the [in] test or from [data[...]]: nothing outside
    the process has changed, no page was loaded or printed, and
    [browser.close()] was not called; the last thing done is leaving the
    [async with] block.  The browser is taken to start. *)
Theorem generate_pdf_type_error_bodies cfg environ uuid4 req s :
  is_object (req_json req) = false →
  ¬ (py_contains "html" (req_json req) = Ok false ∧
     py_contains "url" (req_json req) = Ok false) →
  snd (generate_pdf cfg environ uuid4 req s) = Raise TypeError ∧
  ext (fst (generate_pdf cfg environ uuid4 req s)) = ext s ∧
  ∃ evs,
    trace (fst (generate_pdf cfg environ uuid4 req s)) = trace s ++ evs ∧
    Forall (λ ev, is_rendering ev = false) evs ∧
    Forall (λ ev, is_close ev = false) evs ∧
    last evs = Some (Browser PlaywrightStop).
Proof.
  intros Hno Hnot.
  assert (E : generate_pdf cfg environ uuid4 req s
              = (emitted (prelude cfg req ++ [Browser PlaywrightStop]) s,
                 Raise TypeError)).
  { rewrite generate_pdf_outcome. unfold outcome.
    rewrite !(py_getitem_not_object _ _ Hno).
    destruct (py_contains "html" (req_json req)) as [[|]|e] eqn:Hh.
    - reflexivity.
    - destruct (py_contains "url" (req_json req)) as [[|]|e] eqn:Hu.
      + reflexivity.
      + by destruct Hnot.
      + by rewrite (py_contains_raises _ _ _ Hu).
    - by rewrite (py_contains_raises _ _ _ Hh). }
  rewrite E. cbn [fst snd emitted ext trace].
  split; [reflexivity|]. split; [reflexivity|].
  eexists. split; [reflexivity|]. split; [|split].
  - apply Forall_app. split; [apply prelude_no_rendering|repeat constructor].
  - apply Forall_app. split; [apply prelude_no_close|repeat constructor].
  - apply last_snoc.
Qed.

Lemma generate_pdf_type_error_bodies_witness :
  (is_object (req_json (request_with (JArr [JStr "html"]) ∅)) = false ∧
   py_contains "html" (req_json (request_with (JArr [JStr "html"]) ∅))
     = Ok true) ∧
  snd (generate_pdf default_settings ∅ sample_uuid
         (request_with (JArr [JStr "html"]) ∅) empty_state) = Raise TypeError ∧
  ext (fst (generate_pdf default_settings ∅ sample_uuid
              (request_with (JArr [JStr "html"]) ∅) empty_state))
    = ext empty_state.
Proof.
  assert (Hno : is_object (req_json (request_with (JArr [JStr "html"]) ∅))
                = false) by reflexivity.
  assert (Hh : py_contains "html"
                 (req_json (request_with (JArr [JStr "html"]) ∅)) = Ok true)
    by (vm_compute; reflexivity).
  split; [by split|].
  destruct (generate_pdf_type_error_bodies default_settings ∅ sample_uuid
              (request_with (JArr [JStr "html"]) ∅) empty_state Hno)
    as (Hr & Hext & _).
  { intros [Hf _]. rewrite Hh in Hf. discriminate Hf. }
  by split.
Defined.

(** The world a success leaves. *)
Lemma generate_pdf_success_world cfg environ uuid4 req s r :
  snd (generate_pdf cfg environ uuid4 req s) = Ok r →
  status_of r = 200 →
  ext (fst (generate_pdf cfg environ uuid4 req s))
    = {| clock := clock (ext s);
         pdf_dir := <[uuid4 +:+ ".pdf" := fresh_file (clock (ext s))]>
                      (pdf_dir (ext s));
         fault_listdir := fault_listdir (ext s) |}.
Proof.
  intros Hr Hst.
  by destruct (generate_pdf_success_state _ _ _ _ _ _ Hr Hst)
    as (nav & -> & _ & _).
Qed.

(** X5. A successful request writes one file: after it the output
    directory is the old one with a regular file, stamped with the current
    time, under the name [<id>.pdf]; every other entry, the clock and the
    rest of the world are as before; and the returned address ends in
    [/pdfs/<id>.pdf], the name of that file. *)
Theorem generate_pdf_writes_one_file cfg environ uuid4 req s r :
  snd (generate_pdf cfg environ uuid4 req s) = Ok r →
  status_of r = 200 →
  pdf_dir (ext (fst (generate_pdf cfg environ uuid4 req s)))
    = <[uuid4 +:+ ".pdf" := fresh_file (clock (ext s))]> (pdf_dir (ext s)) ∧
  clock (ext (fst (generate_pdf cfg environ uuid4 req s))) = clock (ext s) ∧
  fault_listdir (ext (fst (generate_pdf cfg environ uuid4 req s)))
    = fault_listdir (ext s) ∧
  (∀ name, name ≠ uuid4 +:+ ".pdf" →
     pdf_dir (ext (fst (generate_pdf cfg environ uuid4 req s))) !! name
       = pdf_dir (ext s) !! name) ∧
  ∃ B, body_of r !! "pdf_url" = Some (B +:+ "/pdfs/" +:+ (uuid4 +:+ ".pdf")).
Proof.
  intros Hr Hst.
  destruct (generate_pdf_success_state _ _ _ _ _ _ Hr Hst)
    as (nav & -> & -> & _).
  cbn [fst rendered ext pdf_dir clock fault_listdir].
  split; [reflexivity|]. split; [reflexivity|]. split; [reflexivity|]. split.
  - intros name Hne. by rewrite lookup_insert_ne.
  - exists (base_url environ req). cbn [body_of success].
    apply lookup_singleton_eq.
Qed.

Lemma generate_pdf_writes_one_file_witness :
  (snd (generate_pdf default_settings ∅ sample_uuid
          (request_with (JObj html_body) ∅) sample_state)
     = Ok (success ∅ (request_with (JObj html_body) ∅) sample_uuid) ∧
   status_of (success ∅ (request_with (JObj html_body) ∅) sample_uuid) = 200) ∧
  pdf_dir (ext (fst (generate_pdf default_settings ∅ sample_uuid
                       (request_with (JObj html_body) ∅) sample_state)))
    !! (sample_uuid +:+ ".pdf") = Some (fresh_file 10000%float) ∧
  pdf_dir (ext (fst (generate_pdf default_settings ∅ sample_uuid
                       (request_with (JObj html_body) ∅) sample_state)))
    !! "old.pdf" = Some old_pdf.
Proof.
  assert (H : snd (generate_pdf default_settings ∅ sample_uuid
                     (request_with (JObj html_body) ∅) sample_state)
              = Ok (success ∅ (request_with (JObj html_body) ∅) sample_uuid))
    by (vm_compute; reflexivity).
  split; [by split|].
  destruct (generate_pdf_writes_one_file _ _ _ _ _ _ H eq_refl)
    as (Hdir & _ & _ & Hother & _).
  split.
  - rewrite Hdir. apply lookup_insert_eq.
  - rewrite Hother by (vm_compute; discriminate). vm_compute. reflexivity.
Defined.

(** X6. A run that returns anything but a 200 has returned the 400 with
    the error message, after both [in] tests on the body came out false;
    it has changed nothing outside the process and made no [page.pdf]
    call. *)
Theorem generate_pdf_writes_only_on_success cfg environ uuid4 req s r :
  snd (generate_pdf cfg environ uuid4 req s) = Ok r →
  status_of r ≠ 200 →
  r = JSONResponse 400 {[ "error" := error_message ]} ∧
  py_contains "html" (req_json req) = Ok false ∧
  py_contains "url" (req_json req) = Ok false ∧
  ext (fst (generate_pdf cfg environ uuid4 req s)) = ext s ∧
  ∃ evs,
    trace (fst (generate_pdf cfg environ uuid4 req s)) = trace s ++ evs ∧
    pdf_calls evs = [].
Proof.
  rewrite generate_pdf_outcome. unfold outcome. intros Hr Hst.
  destruct (py_contains "html" (req_json req)) as [[|]|e];
    [destruct (py_getitem (req_json req) "html") as [html|e]
    |destruct (py_contains "url" (req_json req)) as [[|]|e];
       [destruct (py_getitem (req_json req) "url") as [url|e]| |]
    |];
    cbn [snd] in Hr; try discriminate Hr; injection Hr as <-;
    try (exfalso; by apply Hst).
  cbn [fst emitted ext trace]. repeat (split; [reflexivity|]).
  eexists. split; [reflexivity|].
  by rewrite pdf_calls_app, prelude_no_pdf.
Qed.

Lemma generate_pdf_writes_only_on_success_witness :
  (snd (generate_pdf default_settings ∅ sample_uuid
          (request_with (JStr "plain text") ∅) sample_state)
     = Ok (JSONResponse 400 {[ "error" := error_message ]}) ∧
   status_of (JSONResponse 400 {[ "error" := error_message ]}) ≠ 200) ∧
  ext (fst (generate_pdf default_settings ∅ sample_uuid
              (request_with (JStr "plain text") ∅) sample_state))
    = ext sample_state.
Proof.
  assert (Hr : snd (generate_pdf default_settings ∅ sample_uuid
                      (request_with (JStr "plain text") ∅) sample_state)
               = Ok (JSONResponse 400 {[ "error" := error_message ]}))
    by (vm_compute; reflexivity).
  assert (Hst : status_of (JSONResponse 400 {[ "error" := error_message ]})
                ≠ 200) by discriminate.
  split; [by split|].
  exact (proj1 (proj2 (proj2 (proj2
    (generate_pdf_writes_only_on_success _ _ _ _ _ _ Hr Hst))))).
Defined.

(** X7. A successful request calls [page.pdf] exactly once, right after
    [page.emulate_media(media="print")], with the path
    [generated_pdfs/<id>.pdf] and the format, background flag, scale and
    margins of the settings: nothing of the request enters the call but
    the identifier. *)
Theorem generate_pdf_prints_with_the_settings cfg environ uuid4 req s r :
  snd (generate_pdf cfg environ uuid4 req s) = Ok r →
  status_of r = 200 →
  ∃ evs before after,
    trace (fst (generate_pdf cfg environ uuid4 req s)) = trace s ++ evs ∧
    pdf_calls evs
      = [PagePdf ("generated_pdfs/" +:+ uuid4 +:+ ".pdf")
           (PDF_FORMAT cfg) (PDF_PRINT_BACKGROUND cfg) (PDF_SCALE cfg)
           {| m_top := PDF_MARGIN_TOP cfg; m_bottom := PDF_MARGIN_BOTTOM cfg;
              m_left := PDF_MARGIN_LEFT cfg; m_right := PDF_MARGIN_RIGHT cfg |}] ∧
    evs = before
          ++ [Browser (EmulateMedia "print");
              Browser (PagePdf ("generated_pdfs/" +:+ uuid4 +:+ ".pdf")
                         (PDF_FORMAT cfg) (PDF_PRINT_BACKGROUND cfg)
                         (PDF_SCALE cfg)
                         {| m_top := PDF_MARGIN_TOP cfg;
                            m_bottom := PDF_MARGIN_BOTTOM cfg;
                            m_left := PDF_MARGIN_LEFT cfg;
                            m_right := PDF_MARGIN_RIGHT cfg |})]
          ++ after.
Proof.
  intros Hr Hst.
  destruct (generate_pdf_success_state _ _ _ _ _ _ Hr Hst)
    as (nav & -> & _ & Hnav).
  cbn [fst rendered trace].
  exists (render_events cfg req uuid4 nav), (prelude cfg req ++ [Browser nav]),
    [Browser BrowserClose; Browser PlaywrightStop].
  split; [reflexivity|]. unfold render_events. split.
  - rewrite pdf_calls_app, prelude_no_pdf.
    by destruct Hnav as [[v ->]|[v ->]].
  - by rewrite <- app_assoc.
Qed.

Lemma generate_pdf_prints_with_the_settings_witness :
  (snd (generate_pdf default_settings ∅ sample_uuid
          (request_with (JObj url_body) ∅) empty_state)
     = Ok (success ∅ (request_with (JObj url_body) ∅) sample_uuid) ∧
   status_of (success ∅ (request_with (JObj url_body) ∅) sample_uuid) = 200) ∧
  ∃ evs,
    trace (fst (generate_pdf default_settings ∅ sample_uuid
                  (request_with (JObj url_body) ∅) empty_state)) = evs ∧
    pdf_calls evs
      = [PagePdf "generated_pdfs/1b4e28ba-2fa1-4d3b-a3f5-ef19b5a7633b.pdf"
           "A4" false (PDF_SCALE default_settings)
           {| m_top := "1cm"; m_bottom := "1cm";
              m_left := "1cm"; m_right := "1cm" |}].
Proof.
  assert (H : snd (generate_pdf default_settings ∅ sample_uuid
                     (request_with (JObj url_body) ∅) empty_state)
              = Ok (success ∅ (request_with (JObj url_body) ∅) sample_uuid))
    by (vm_compute; reflexivity).
  split; [by split|].
  destruct (generate_pdf_prints_with_the_settings _ _ _ _ _ _ H eq_refl)
    as (evs & _ & _ & Htr & Hpdf & _).
  exists evs. split; [exact Htr|exact Hpdf].
Defined.

(** X8. A run that returns, with a success or with the 400, has called
    [browser.close()] exactly once, as its last call before leaving the
    [async with] block. *)
Theorem generate_pdf_closes_the_browser cfg environ uuid4 req s r :
  snd (generate_pdf cfg environ uuid4 req s) = Ok r →
  ∃ before,
    trace (fst (generate_pdf cfg environ uuid4 req s))
      = trace s ++ before ++ [Browser BrowserClose; Browser PlaywrightStop] ∧
    Forall (λ e, is_close e = false) before.
Proof.
  intros Hr.
  destruct (generate_pdf_failure_state cfg environ uuid4 req s)
    as [(r' & Hr' & Hst)|(res & closing & E & Hcase)].
  - destruct (generate_pdf_success_state _ _ _ _ _ _ Hr' Hst)
      as (nav & -> & _ & Hnav).
    cbn [fst rendered trace]. unfold render_events.
    exists (prelude cfg req
            ++ [Browser nav; Browser (EmulateMedia "print");
                Browser (PagePdf (os_path_join PDF_DIR (uuid4 +:+ ".pdf"))
                           (PDF_FORMAT cfg) (PDF_PRINT_BACKGROUND cfg)
                           (PDF_SCALE cfg)
                           {| m_top := PDF_MARGIN_TOP cfg;
                              m_bottom := PDF_MARGIN_BOTTOM cfg;
                              m_left := PDF_MARGIN_LEFT cfg;
                              m_right := PDF_MARGIN_RIGHT cfg |})]).
    split; [by rewrite <- app_assoc|].
    apply Forall_app. split; [apply prelude_no_close|].
    destruct Hnav as [[v ->]|[v ->]]; repeat constructor.
  - rewrite E in Hr |- *. cbn [fst snd emitted trace] in *.
    destruct Hcase as [[-> ->]|(-> & -> & _)]; [|discriminate Hr].
    exists (prelude cfg req). split; [reflexivity|]. apply prelude_no_close.
Qed.

Lemma generate_pdf_closes_the_browser_witness :
  snd (generate_pdf default_settings ∅ sample_uuid
         (request_with (JObj other_body) ∅) empty_state)
    = Ok (JSONResponse 400 {[ "error" := error_message ]}) ∧
  ∃ before,
    trace (fst (generate_pdf default_settings ∅ sample_uuid
                  (request_with (JObj other_body) ∅) empty_state))
      = trace empty_state ++ before
        ++ [Browser BrowserClose; Browser PlaywrightStop] ∧
    Forall (λ e, is_close e = false) before.
Proof.
  assert (H : snd (generate_pdf default_settings ∅ sample_uuid
                     (request_with (JObj other_body) ∅) empty_state)
              = Ok (JSONResponse 400 {[ "error" := error_message ]}))
    by (vm_compute; reflexivity).
  split; [exact H|].
  exact (generate_pdf_closes_the_browser _ _ _ _ _ _ H).
Defined.

(** On a parsed body, every run begins with the playwright entry, the
    launch and the new context, then the cookie injection if any, then the
    new page. *)
Lemma generate_pdf_begins_with_the_launch cfg environ uuid4 req s :
  ∃ cookies rest,
    trace (fst (generate_pdf cfg environ uuid4 req s))
      = trace s
        ++ [Browser PlaywrightStart; Browser ChromiumLaunch; Browser NewContext]
        ++ cookies ++ [Browser NewPage] ++ rest ∧
    Forall (λ e, is_add_cookies e = true) cookies ∧
    (length cookies ≤ 1)%nat ∧
    Forall (λ e, is_add_cookies e = false) rest.
Proof.
  assert (Hshape : ∃ rest,
    trace (fst (generate_pdf cfg environ uuid4 req s))
      = trace s ++ prelude cfg req ++ rest ∧
    Forall (λ e, is_add_cookies e = false) rest).
  { destruct (generate_pdf_failure_state cfg environ uuid4 req s)
      as [(r & Hr & Hst)|(res & closing & -> & Hcase)].
    - destruct (generate_pdf_success_state _ _ _ _ _ _ Hr Hst)
        as (nav & -> & _ & Hnav).
      cbn [fst rendered trace]. unfold render_events.
      eexists. split; [reflexivity|].
      destruct Hnav as [[v ->]|[v ->]]; repeat constructor.
    - cbn [fst emitted trace]. eexists. split; [reflexivity|].
      destruct Hcase as [[-> _]|(-> & _)]; repeat constructor. }
  destruct Hshape as (rest & -> & Hrest). unfold prelude.
  destruct (req_cookies req !! "token") as [v|];
    [destruct (String.eqb v "")|].
  - exists [], rest. cbn [app length]. repeat split; [constructor|lia|done].
  - eexists [_], rest. cbn [app length].
    repeat split; [repeat constructor|lia|done].
  - exists [], rest. cbn [app length]. repeat split; [constructor|lia|done].
Qed.

(** X9. A request whose body is not JSON fails at [request.json()]
    with that error, before any browser call, and changes nothing.  For
    every request whose body parses, whatever it holds, Chromium is
    launched and a context and a page are created before the body is
    looked at: the run begins with the playwright entry, the launch and
    the new context, then the cookie injection if any, then the new page,
    so that rejected bodies pay for a browser launch too.  The browser is
    taken to start. *)
Theorem post_generate_pdf_parses_then_launches cfg environ uuid4 raw s :
  match raw_json raw with
  | Raise e => post_generate_pdf cfg environ uuid4 raw s = (s, Raise e)
  | Ok data =>
      ∃ cookies rest,
        trace (fst (post_generate_pdf cfg environ uuid4 raw s))
          = trace s
            ++ [Browser PlaywrightStart; Browser ChromiumLaunch;
                Browser NewContext]
            ++ cookies ++ [Browser NewPage] ++ rest ∧
        Forall (λ e, is_add_cookies e = true) cookies ∧
        (length cookies ≤ 1)%nat ∧
        Forall (λ e, is_add_cookies e = false) rest
  end.
Proof.
  unfold post_generate_pdf. run.
  destruct (raw_json raw) as [data|e]; [|reflexivity].
  apply generate_pdf_begins_with_the_launch.
Qed.

Lemma post_generate_pdf_parses_then_launches_witness :
  post_generate_pdf default_settings ∅ sample_uuid not_json_request sample_state
    = (sample_state, Raise ValueError).
Proof.
  exact (post_generate_pdf_parses_then_launches default_settings ∅ sample_uuid
           not_json_request sample_state).
Defined.

Lemma string_length_app (a b : string) :
  String.length (a +:+ b) = (String.length a + String.length b)%nat.
Proof. induction a as [|c a IH]; simpl; [reflexivity|by f_equal]. Qed.

Lemma string_app_inv_tail (a b t : string) : a +:+ t = b +:+ t → a = b.
Proof.
  revert b. induction a as [|c a IH]; intros [|d b] H.
  - reflexivity.
  - apply (f_equal String.length) in H.
    rewrite !string_length_app in H. simpl in H. lia.
  - apply (f_equal String.length) in H.
    rewrite !string_length_app in H. simpl in H. lia.
  - injection H as -> H. f_equal. by apply IH.
Qed.

(** X10. Two successful requests served one after the other under
    different identifiers leave two files, [<id>.pdf] for each: the second
    does not overwrite the file of the first.  When both are answered
    from the same base address, the two returned addresses differ. *)
Theorem generate_pdf_distinct_ids_distinct_files cfg environ id1 id2
    req1 req2 s r1 r2 :
  id1 ≠ id2 →
  snd (generate_pdf cfg environ id1 req1 s) = Ok r1 →
  status_of r1 = 200 →
  snd (generate_pdf cfg environ id2 req2
         (fst (generate_pdf cfg environ id1 req1 s))) = Ok r2 →
  status_of r2 = 200 →
  pdf_dir (ext (fst (generate_pdf cfg environ id2 req2
                       (fst (generate_pdf cfg environ id1 req1 s)))))
    !! (id1 +:+ ".pdf") = Some (fresh_file (clock (ext s))) ∧
  pdf_dir (ext (fst (generate_pdf cfg environ id2 req2
                       (fst (generate_pdf cfg environ id1 req1 s)))))
    !! (id2 +:+ ".pdf") = Some (fresh_file (clock (ext s))) ∧
  (base_url environ req1 = base_url environ req2 →
   body_of r1 !! "pdf_url" ≠ body_of r2 !! "pdf_url").
Proof.
  intros Hne H1 Hs1 H2 Hs2.
  pose proof (generate_pdf_success_world _ _ _ _ _ _ H1 Hs1) as Hw1.
  pose proof (generate_pdf_success_world _ _ _ _ _ _ H2 Hs2) as Hw2.
  rewrite Hw2, Hw1. cbn [pdf_dir clock].
  assert (Hnames : id2 +:+ ".pdf" ≠ id1 +:+ ".pdf").
  { intros E. by apply string_app_inv_tail in E. }
  split; [|split].
  - rewrite lookup_insert_ne by done. apply lookup_insert_eq.
  - apply lookup_insert_eq.
  - intros Hb.
    destruct (generate_pdf_success_state _ _ _ _ _ _ H1 Hs1)
      as (_ & _ & -> & _).
    destruct (generate_pdf_success_state _ _ _ _ _ _ H2 Hs2)
      as (_ & _ & -> & _).
    cbn [body_of success]. rewrite !lookup_singleton_eq, Hb.
    intros E. injection E as E.
    apply (inj (String.app _)) in E. apply (inj (String.app _)) in E.
    by apply string_app_inv_tail in E.
Qed.

Lemma generate_pdf_distinct_ids_distinct_files_witness :
  (sample_uuid ≠ other_uuid ∧
   snd (generate_pdf default_settings ∅ sample_uuid
          (request_with (JObj html_body) ∅) empty_state)
     = Ok (success ∅ (request_with (JObj html_body) ∅) sample_uuid) ∧
   snd (generate_pdf default_settings ∅ other_uuid
          (request_with (JObj url_body) ∅)
          (fst (generate_pdf default_settings ∅ sample_uuid
                  (request_with (JObj html_body) ∅) empty_state)))
     = Ok (success ∅ (request_with (JObj url_body) ∅) other_uuid)) ∧
  pdf_dir (ext (fst (generate_pdf default_settings ∅ other_uuid
                       (request_with (JObj url_body) ∅)
                       (fst (generate_pdf default_settings ∅ sample_uuid
                               (request_with (JObj html_body) ∅) empty_state)))))
    !! (sample_uuid +:+ ".pdf") = Some (fresh_file (clock (ext empty_state))).
Proof.
  assert (Hne : sample_uuid ≠ other_uuid) by (vm_compute; discriminate).
  assert (H1 : snd (generate_pdf default_settings ∅ sample_uuid
                      (request_with (JObj html_body) ∅) empty_state)
               = Ok (success ∅ (request_with (JObj html_body) ∅) sample_uuid))
    by (vm_compute; reflexivity).
  assert (H2 : snd (generate_pdf default_settings ∅ other_uuid
                      (request_with (JObj url_body) ∅)
                      (fst (generate_pdf default_settings ∅ sample_uuid
                              (request_with (JObj html_body) ∅) empty_state)))
               = Ok (success ∅ (request_with (JObj url_body) ∅) other_uuid))
    by (vm_compute; reflexivity).
  split; [by repeat split|].
  exact (proj1 (generate_pdf_distinct_ids_distinct_files _ _ _ _ _ _ _ _ _
                  Hne H1 eq_refl H2 eq_refl)).
Defined.

(** ** The handler and the sweeper together *)

(** X11. The file of a successful request lives until a sweep finds it
    too old: a cycle that starts at time [t] removes it exactly when [t]
    minus the time of the request exceeds [PDF_RETENTION_SECONDS], and
    leaves it as written otherwise. *)
Theorem rendered_file_lives_for_the_retention cfg environ uuid4 req s r t :
  snd (generate_pdf cfg environ uuid4 req s) = Ok r →
  status_of r = 200 →
  fault_listdir (ext s) = None →
  pdf_dir (ext (fst (sweep_cycle cfg
                       (at_time t (fst (generate_pdf cfg environ uuid4 req s))))))
    !! (uuid4 +:+ ".pdf")
  = if float_gt_int (PrimFloat.sub t (clock (ext s))) (PDF_RETENTION_SECONDS cfg)
    then None
    else Some (fresh_file (clock (ext s))).
Proof.
  intros Hr Hst Hl.
  pose proof (generate_pdf_success_world _ _ _ _ _ _ Hr Hst) as Hw.
  set (s1 := fst (generate_pdf cfg environ uuid4 req s)) in *.
  destruct (sweep_cycle_spec cfg (at_time t s1)) as (d & removed & -> & Hd & _).
  { cbn [at_time ext fault_listdir]. by rewrite Hw. }
  cbn [fst after_sweep with_pdf_dir ext pdf_dir]. rewrite Hd.
  cbn [at_time ext pdf_dir clock]. rewrite Hw. cbn [pdf_dir].
  rewrite lookup_insert_eq. cbn.
  unfold keep. rewrite swept_regular_healthy by done.
  reflexivity.
Qed.

Lemma rendered_file_lives_for_the_retention_witness :
  (snd (generate_pdf default_settings ∅ sample_uuid
          (request_with (JObj html_body) ∅) empty_state)
     = Ok (success ∅ (request_with (JObj html_body) ∅) sample_uuid) ∧
   fault_listdir (ext empty_state) = None) ∧
  pdf_dir (ext (fst (sweep_cycle default_settings
                       (at_time 13600%float
                          (fst (generate_pdf default_settings ∅ sample_uuid
                                  (request_with (JObj html_body) ∅)
                                  empty_state))))))
    !! (sample_uuid +:+ ".pdf") = Some (fresh_file 10000%float) ∧
  pdf_dir (ext (fst (sweep_cycle default_settings
                       (at_time 13600.5%float
                          (fst (generate_pdf default_settings ∅ sample_uuid
                                  (request_with (JObj html_body) ∅)
                                  empty_state))))))
    !! (sample_uuid +:+ ".pdf") = None.
Proof.
  assert (H : snd (generate_pdf default_settings ∅ sample_uuid
                     (request_with (JObj html_body) ∅) empty_state)
              = Ok (success ∅ (request_with (JObj html_body) ∅) sample_uuid))
    by (vm_compute; reflexivity).
  split; [by split|]. split.
  - rewrite (rendered_file_lives_for_the_retention _ _ _ _ _ _ 13600%float
               H eq_refl eq_refl).
    vm_compute. reflexivity.
  - rewrite (rendered_file_lives_for_the_retention _ _ _ _ _ _ 13600.5%float
               H eq_refl eq_refl).
    vm_compute. reflexivity.
Defined.

(** ** The sweeper: further properties *)

Lemma keep_twice cfg now (o : option file) :
  (o ≫= keep cfg now) ≫= keep cfg now = o ≫= keep cfg now.
Proof.
  destruct o as [f|]; [|reflexivity]. cbn. unfold keep.
  destruct (swept cfg now f) eqn:E; cbn; [reflexivity|]. by rewrite E.
Qed.

(** X12. A sweep is idempotent: a second cycle started at the same
    time removes nothing, counts zero, prints nothing and leaves the state
    as the first cycle left it. *)
Theorem sweep_twice_is_sweep_once cfg s :
  fault_listdir (ext s) = None →
  sweep_cycle cfg (fst (sweep_cycle cfg s))
    = (fst (sweep_cycle cfg s), Ok 0%nat).
Proof.
  intros Hl.
  destruct (sweep_cycle_spec cfg s Hl) as (d & removed & -> & Hd & _).
  cbn [fst].
  destruct (sweep_cycle_spec cfg (after_sweep d removed s))
    as (d2 & removed2 & -> & Hd2 & Hsz2); [exact Hl|].
  cbn [after_sweep with_pdf_dir ext pdf_dir clock] in Hd2, Hsz2.
  assert (d2 = d) as ->.
  { apply map_eq. intros k. by rewrite Hd2, Hd, keep_twice. }
  assert (removed2 = 0%nat) as -> by lia.
  unfold after_sweep at 1, cleanup_log at 1, with_pdf_dir at 1.
  cbn [Nat.ltb Nat.leb ext trace after_sweep with_pdf_dir clock pdf_dir
       fault_listdir].
  by rewrite app_nil_r.
Qed.

Lemma sweep_twice_is_sweep_once_witness :
  fault_listdir (ext sample_state) = None ∧
  snd (sweep_cycle default_settings sample_state) = Ok 1%nat ∧
  sweep_cycle default_settings (fst (sweep_cycle default_settings sample_state))
    = (fst (sweep_cycle default_settings sample_state), Ok 0%nat).
Proof.
  split; [reflexivity|]. split; [vm_compute; reflexivity|].
  exact (sweep_twice_is_sweep_once default_settings sample_state eq_refl).
Defined.

(** X13. Only regular files are ever removed: an entry that is a
    directory, or anything else [os.path.isfile] denies, is still there
    after a cycle, however old it is. *)
Theorem sweep_spares_what_is_not_a_file cfg s name f :
  pdf_dir (ext s) !! name = Some f →
  f_kind f ≠ Regular →
  pdf_dir (ext (fst (sweep_cycle cfg s))) !! name = Some f.
Proof.
  intros Hf Hk.
  destruct (fault_listdir (ext s)) as [k|] eqn:Hl.
  - by rewrite (sweep_cycle_listdir_fault cfg s k Hl).
  - destruct (sweep_cycle_spec cfg s Hl) as (d & removed & -> & Hd & _).
    cbn [fst after_sweep with_pdf_dir ext pdf_dir]. rewrite Hd, Hf. cbn.
    unfold keep, swept.
    destruct (fault_stat f), (fault_getmtime f), (fault_remove f);
      try reflexivity.
    by destruct (f_kind f).
Qed.

Lemma sweep_spares_what_is_not_a_file_witness :
  (pdf_dir (ext sample_state) !! "subdir"
     = Some (plain_file Directory 1000%float) ∧
   f_kind (plain_file Directory 1000%float) ≠ Regular ∧
   expired default_settings (clock (ext sample_state))
     (plain_file Directory 1000%float) = true) ∧
  pdf_dir (ext (fst (sweep_cycle default_settings sample_state))) !! "subdir"
    = Some (plain_file Directory 1000%float).
Proof.
  assert (Hf : pdf_dir (ext sample_state) !! "subdir"
               = Some (plain_file Directory 1000%float))
    by (vm_compute; reflexivity).
  assert (Hk : f_kind (plain_file Directory 1000%float) ≠ Regular)
    by discriminate.
  split; [split; [exact Hf|split; [exact Hk|vm_compute; reflexivity]]|].
  exact (sweep_spares_what_is_not_a_file default_settings sample_state
           "subdir" _ Hf Hk).
Defined.

Lemma float_gt_int_antitone x (k k' : Z) :
  k' ≤ k → float_gt_int x k = true → float_gt_int x k' = true.
Proof.
  unfold float_gt_int, float_cmp_int. intros Hle.
  destruct (Prim2SF x) as [sg|sg| |sg m e].
  - destruct (Z.compare 0 k) eqn:E; try discriminate. intros _.
    apply Z.compare_gt_iff in E.
    assert (E' : Z.compare 0 k' = Gt) by (apply Z.compare_gt_iff; lia).
    by rewrite E'.
  - done.
  - done.
  - destruct (0 <=? e).
    + destruct (Z.compare _ k) eqn:E; try discriminate. intros _.
      apply Z.compare_gt_iff in E.
      match goal with |- context [?a ?= k'] =>
        assert (E' : Z.compare a k' = Gt) by (apply Z.compare_gt_iff; lia) end.
      by rewrite E'.
    + destruct (Z.compare _ (k * _)) eqn:E; try discriminate. intros _.
      apply Z.compare_gt_iff in E.
      assert (Hp : 0 ≤ 2 ^ (- e)) by (apply Z.pow_nonneg; lia).
      match goal with |- context [?a ?= k' * ?p] =>
        assert (E' : Z.compare a (k' * p) = Gt) by (apply Z.compare_gt_iff; nia) end.
      by rewrite E'.
Qed.

(** X14. A shorter retention never saves a file: what survives a cycle
    under a threshold survives the same cycle under any larger one. *)
Theorem sweep_is_monotone_in_the_retention cfg cfg' s :
  PDF_RETENTION_SECONDS cfg' ≤ PDF_RETENTION_SECONDS cfg →
  fault_listdir (ext s) = None →
  pdf_dir (ext (fst (sweep_cycle cfg' s)))
    ⊆ pdf_dir (ext (fst (sweep_cycle cfg s))).
Proof.
  intros Hle Hl.
  destruct (sweep_cycle_spec cfg s Hl) as (d & removed & -> & Hd & _).
  destruct (sweep_cycle_spec cfg' s Hl) as (d' & removed' & -> & Hd' & _).
  cbn [fst after_sweep with_pdf_dir ext pdf_dir].
  apply map_subseteq_spec. intros k f. rewrite Hd, Hd'.
  destruct (pdf_dir (ext s) !! k) as [g|]; cbn; [|done].
  unfold keep.
  destruct (swept cfg' (clock (ext s)) g) eqn:E'; [done|]. intros [= ->].
  destruct (swept cfg (clock (ext s)) f) eqn:E; [|reflexivity].
  exfalso. unfold swept in E, E'.
  destruct (fault_stat f), (fault_getmtime f), (fault_remove f);
    try discriminate E.
  apply andb_true_iff in E as [Hreg Hexp]. rewrite Hreg in E'.
  unfold expired in Hexp, E'.
  rewrite (float_gt_int_antitone _ _ _ Hle Hexp) in E'. discriminate E'.
Qed.

Lemma sweep_is_monotone_in_the_retention_witness :
  (PDF_RETENTION_SECONDS (with_retention 5 default_settings)
     ≤ PDF_RETENTION_SECONDS default_settings ∧
   fault_listdir (ext sample_state) = None) ∧
  pdf_dir (ext (fst (sweep_cycle (with_retention 5 default_settings)
                       sample_state))) !! "new.pdf" = None ∧
  pdf_dir (ext (fst (sweep_cycle (with_retention 5 default_settings)
                       sample_state)))
    ⊆ pdf_dir (ext (fst (sweep_cycle default_settings sample_state))).
Proof.
  assert (Hle : PDF_RETENTION_SECONDS (with_retention 5 default_settings)
                ≤ PDF_RETENTION_SECONDS default_settings)
    by (cbn; lia).
  split; [by split|]. split; [vm_compute; reflexivity|].
  exact (sweep_is_monotone_in_the_retention default_settings
           (with_retention 5 default_settings) sample_state Hle eq_refl).
Defined.

Lemma cleanup_old_pdfs_plus cfg environment n m s s_n :
  cleanup_old_pdfs cfg environment n s = (s_n, Ok Running) →
  cleanup_old_pdfs cfg environment (n + m) s
    = cleanup_old_pdfs cfg environment m s_n.
Proof.
  unfold cleanup_old_pdfs. revert s.
  induction n as [|n IH]; intros s Hn.
  - cbn in Hn. unfold ret in Hn. by injection Hn as ->.
  - cbn [while_loop Nat.add] in Hn |- *. unfold bind in Hn |- *.
    destruct (loop_body cfg environment s) as [s1 [[]|e]].
    + by apply IH.
    + discriminate Hn.
Qed.

(** X15. [os.listdir] is outside the [try] block, so its failure is
    not suppressed: if the task, after some iterations, finds the output
    directory unlistable at the start of an iteration, it ends there with
    that [OSError], having changed nothing more; no later iteration
    runs. *)
Theorem sweeper_ends_when_the_directory_is_lost cfg environment n m s s_n k :
  cleanup_old_pdfs cfg environment n s = (s_n, Ok Running) →
  fault_listdir (ext s_n) = Some k →
  cleanup_old_pdfs cfg environment (n + S m) s = (s_n, Raise (OSError k)).
Proof.
  intros Hn Hl. rewrite (cleanup_old_pdfs_plus _ _ _ _ _ _ Hn).
  unfold cleanup_old_pdfs. cbn [while_loop]. unfold loop_body. run.
  by rewrite (sweep_cycle_listdir_fault cfg s_n k Hl).
Qed.

Lemma sweeper_ends_when_the_directory_is_lost_witness :
  (snd (cleanup_old_pdfs default_settings directory_removed 1 sample_state)
     = Ok Running ∧
   fault_listdir
     (ext (fst (cleanup_old_pdfs default_settings directory_removed 1
                  sample_state))) = Some FileNotFoundError) ∧
  snd (cleanup_old_pdfs default_settings directory_removed (1 + 5) sample_state)
    = Raise (OSError FileNotFoundError) ∧
  sleeps (trace (fst (cleanup_old_pdfs default_settings directory_removed
                        (1 + 5) sample_state))) = [300].
Proof.
  assert (H1 : snd (cleanup_old_pdfs default_settings directory_removed 1
                      sample_state) = Ok Running) by (vm_compute; reflexivity).
  assert (H2 : fault_listdir
                 (ext (fst (cleanup_old_pdfs default_settings directory_removed
                              1 sample_state))) = Some FileNotFoundError)
    by (vm_compute; reflexivity).
  split; [by split|].
  assert (Hn : cleanup_old_pdfs default_settings directory_removed 1
                 sample_state
               = (fst (cleanup_old_pdfs default_settings directory_removed 1
                         sample_state), Ok Running)).
  { rewrite <- H1. apply surjective_pairing. }
  rewrite (sweeper_ends_when_the_directory_is_lost _ _ 1 4 _ _ _ Hn H2).
  split; [reflexivity|]. vm_compute. reflexivity.
Defined.

(** ** Settings parsed from strings: properties *)

Lemma str_split_cons sep s : ∃ piece rest, str_split sep s = piece :: rest.
Proof.
  induction s as [|c s (piece & rest & IH)]; cbn [str_split].
  - by eexists _, _.
  - destruct (Ascii.eqb c sep); [by eexists _, _|].
    rewrite IH. by eexists _, _.
Qed.

Lemma str_split_concat sep s :
  String.concat (String sep "") (str_split sep s) = s.
Proof.
  induction s as [|c s IH]; [reflexivity|]. cbn [str_split].
  destruct (str_split_cons sep s) as (piece & rest & E). rewrite E in IH |- *.
  destruct (Ascii.eqb c sep) eqn:Hc.
  - apply Ascii.eqb_eq in Hc as ->.
    change (String.concat (String sep "") ("" :: piece :: rest))
      with (String sep (String.concat (String sep "") (piece :: rest))).
    by rewrite IH.
  - destruct rest as [|next rest].
    + cbn in IH |- *. by rewrite IH.
    + change (String.concat (String sep "") (String c piece :: next :: rest))
        with (String c (String.concat (String sep "") (piece :: next :: rest))).
      by rewrite IH.
Qed.

Lemma str_split_pieces sep s :
  Forall (λ piece, count_char sep piece = 0%nat) (str_split sep s) ∧
  length (str_split sep s) = S (count_char sep s).
Proof.
  induction s as [|c s [IHf IHl]]; cbn [str_split count_char].
  - split; [by repeat constructor|reflexivity].
  - destruct (str_split_cons sep s) as (piece & rest & E).
    rewrite E in IHf, IHl |- *.
    destruct (Ascii.eqb c sep) eqn:Hc.
    + split; [by constructor|]. cbn [length] in *. lia.
    + apply Forall_cons in IHf as [Hp Hr]. split.
      * constructor; [|exact Hr]. cbn [count_char]. by rewrite Hc, Hp.
      * cbn [length] in *. lia.
Qed.

(** X16. Splitting the configured origins loses nothing: joining the
    entries of [CORS_ORIGINS] with commas gives back the configured string
    character for character; no entry is trimmed or dropped. *)
Theorem CORS_ORIGINS_joined environ :
  String.concat "," (CORS_ORIGINS environ)
  = default "http://localhost:5173" (environ !! "CORS_ORIGINS").
Proof. unfold CORS_ORIGINS. apply (str_split_concat comma). Qed.

(** X17. [CORS_ORIGINS] has one entry more than the configured string
    has commas, so it is never empty, and no entry contains a comma: an
    empty configured string gives the single origin [""], and two commas
    in a row give an empty origin between them. *)
Theorem CORS_ORIGINS_entries environ :
  length (CORS_ORIGINS environ)
    = S (count_char comma
           (default "http://localhost:5173" (environ !! "CORS_ORIGINS"))) ∧
  Forall (λ origin, count_char comma origin = 0%nat) (CORS_ORIGINS environ).
Proof.
  unfold CORS_ORIGINS.
  destruct (str_split_pieces comma
              (default "http://localhost:5173" (environ !! "CORS_ORIGINS")))
    as [Hf Hl].
  by split.
Qed.

Example CORS_ORIGINS_samples :
  CORS_ORIGINS ∅ = ["http://localhost:5173"] ∧
  CORS_ORIGINS {[ "CORS_ORIGINS" := "https://a.example,https://b.example" ]}
    = ["https://a.example"; "https://b.example"] ∧
  CORS_ORIGINS {[ "CORS_ORIGINS" := "https://a.example, https://b.example" ]}
    = ["https://a.example"; " https://b.example"] ∧
  CORS_ORIGINS {[ "CORS_ORIGINS" := "" ]} = [""] ∧
  CORS_ORIGINS {[ "CORS_ORIGINS" := "a,,b," ]} = ["a"; ""; "b"; ""].
Proof. repeat split; vm_compute; reflexivity. Qed.
